(** * ipynb-test: the cell output matcher and the test driver

    A shallow embedding of [ipynb_test/cell.py] and [ipynb_test/tester.py].

    Notebook documents reach the code as the values Python's [json] module
    produces, so the embedding works on a datatype of such values.  A
    JSON number is an integer or a float, [NaN] and the infinities
    included, as [json.loads] reads them; objects are association lists in
    insertion order, because the code iterates over [dict.keys()].  A Python
    exception is an explicit [Raise] result. *)

From Stdlib Require Import String Ascii List ZArith Bool Lia PeanoNat.
Import ListNotations.
Local Open Scope string_scope.
Local Open Scope list_scope.

(** ** Python values and exceptions *)

(** A float by its value: not a number, an infinity, or the dyadic
    rational [m * 2 ^ e]. *)
Inductive pyfloat : Type :=
| FNaN
| FInf (negative : bool)
| FFinite (m e : Z).

(** [x == y] on floats: [NaN] equals nothing, itself included; finite
    values compare exactly. *)
Definition float_eqb (x y : pyfloat) : bool :=
  match x, y with
  | FInf a, FInf b => Bool.eqb a b
  | FFinite m e, FFinite m' e' =>
      Z.eqb (m * 2 ^ (e - Z.min e e')) (m' * 2 ^ (e' - Z.min e e'))
  | _, _ => false
  end.

(** The float an integer compares as; Python compares them exactly. *)
Definition float_of_Z (n : Z) : pyfloat := FFinite n 0.

#[local] Unset Elimination Schemes.

Inductive json : Type :=
| JNull
| JBool (b : bool)
| JNum (n : Z)
| JFloat (f : pyfloat)
| JStr (s : string)
| JList (items : list json)
| JDict (fields : list (string * json)).

#[local] Set Elimination Schemes.

Inductive exn : Type :=
| KeyError
| TypeError
| AttributeError
| IndexError.

Inductive result (A : Type) : Type :=
| Ok (a : A)
| Raise (e : exn).

Arguments Ok {A} a.
Arguments Raise {A} e.

Definition bind {A B : Type} (m : result A) (k : A -> result B) : result B :=
  match m with
  | Ok a => k a
  | Raise e => Raise e
  end.

Notation "x <- m ;; k" := (bind m (fun x => k))
  (at level 61, m at next level, right associativity).

(** ** Dictionaries *)

(** [d.get(k)] on the association list behind a dict: the first binding. *)
Fixpoint dict_get {V : Type} (k : string) (d : list (string * V)) : option V :=
  match d with
  | [] => None
  | (k', v) :: rest => if String.eqb k k' then Some v else dict_get k rest
  end.

Definition dict_keys {V : Type} (d : list (string * V)) : list string :=
  map fst d.

(** Comparison of two [dict.keys()] views: equal sizes, and every key of the
    left view is a member of the right one. *)
Definition keys_eq (a b : list string) : bool :=
  Nat.eqb (length a) (length b)
  && forallb (fun k => existsb (String.eqb k) b) a.

(** ** Python's [==] on JSON values

    [True == 1] and [False == 0] hold in Python, integers and floats
    compare by value; lists compare element by element, dicts compare as
    finite maps whatever their insertion order.  Values are compared as
    Python compares two objects built apart, such as fresh and recorded
    outputs: the shortcut by which a list or a dict takes an item for equal
    to itself without calling [==] plays no part. *)
Fixpoint py_eq (x y : json) {struct x} : bool :=
  match x, y with
  | JNull, JNull => true
  | JBool a, JBool b => Bool.eqb a b
  | JBool a, JNum n => Z.eqb (if a then 1 else 0) n
  | JNum n, JBool b => Z.eqb n (if b then 1 else 0)
  | JNum n, JNum m => Z.eqb n m
  | JBool a, JFloat f => float_eqb (float_of_Z (if a then 1 else 0)) f
  | JFloat f, JBool b => float_eqb f (float_of_Z (if b then 1 else 0))
  | JNum n, JFloat f => float_eqb (float_of_Z n) f
  | JFloat f, JNum n => float_eqb f (float_of_Z n)
  | JFloat f, JFloat g => float_eqb f g
  | JStr s, JStr t => String.eqb s t
  | JList l, JList r =>
      (fix items_eq (l r : list json) {struct l} : bool :=
         match l, r with
         | [], [] => true
         | a :: l', b :: r' => py_eq a b && items_eq l' r'
         | _, _ => false
         end) l r
  | JDict a, JDict b =>
      Nat.eqb (length a) (length b)
      && forallb (fun kv =>
                    match dict_get (fst kv) b with
                    | Some w => py_eq (snd kv) w
                    | None => false
                    end) a
  | _, _ => false
  end.

Definition py_ne (x y : json) : bool := negb (py_eq x y).

(** [o[k]] with a string subscript [k]. *)
Definition getitem (o : json) (k : string) : result json :=
  match o with
  | JDict d =>
      match dict_get k d with
      | Some v => Ok v
      | None => Raise KeyError
      end
  | _ => Raise TypeError
  end.

(** [o.keys()] *)
Definition keys (o : json) : result (list string) :=
  match o with
  | JDict d => Ok (dict_keys d)
  | _ => Raise AttributeError
  end.

(** [o.get(k)], with the default [None]. *)
Definition get (o : json) (k : string) : result json :=
  match o with
  | JDict d =>
      match dict_get k d with
      | Some v => Ok v
      | None => Ok JNull
      end
  | _ => Raise AttributeError
  end.

(** The items of a list as strings; [str.join] raises on any other item. *)
Fixpoint str_items (l : list json) : result (list string) :=
  match l with
  | [] => Ok []
  | JStr s :: rest => ss <- str_items rest ;; Ok (s :: ss)
  | _ :: _ => Raise TypeError
  end.

(** [sep.join(l)] *)
Definition join (sep : string) (l : list json) : result string :=
  ss <- str_items l ;; Ok (String.concat sep ss).

Definition newline : string := String (ascii_of_nat 10) EmptyString.

(** ** [CodeCell] *)

Record CodeCell : Type := {
  source : string;
  original_outputs : list json;
  exec_count : option Z;
  metadata : json;
  cell_id : option Z
}.

(** [x = "".join(x) if isinstance(x, list) else x] *)
Definition join_if_list (t : json) : result json :=
  match t with
  | JList l => s <- join "" l ;; Ok (JStr s)
  | _ => Ok t
  end.

Definition _compare_multiline_text (exec_text original_text : json)
  : result bool :=
  exec_text' <- join_if_list exec_text ;;
  original_text' <- join_if_list original_text ;;
  Ok (py_eq exec_text' original_text').

Definition _test_match_stream (exec_output original_output : json)
  : result bool :=
  en <- getitem exec_output "name" ;;
  on <- getitem original_output "name" ;;
  if py_ne en on then Ok false
  else
    et <- getitem exec_output "text" ;;
    ot <- getitem original_output "text" ;;
    _compare_multiline_text et ot.

(** [all(exec_output[key] == original_output[key] for key in ks)]: the
    generator is consumed lazily and stops at the first falsy item. *)
Fixpoint all_fields_equal (exec_output original_output : json)
  (ks : list string) : result bool :=
  match ks with
  | [] => Ok true
  | key :: rest =>
      e <- getitem exec_output key ;;
      o <- getitem original_output key ;;
      if py_eq e o then all_fields_equal exec_output original_output rest
      else Ok false
  end.

Definition _test_match_error (exec_output original_output : json)
  : result bool :=
  all_fields_equal exec_output original_output
    ["ename"; "evalue"; "traceback"].

(** The body of the loop over [exec_data.keys()]: [Ok false] is the
    [return False], [Ok true] falls through to the next key.  A key that
    matches none of the three [case] patterns falls through at once. *)
Definition data_key_ok
  (exec_data exec_metadata original_data original_metadata : json)
  (key : string) : result bool :=
  if String.eqb key "text/plain" then
    e <- getitem exec_data key ;;
    o <- getitem original_data key ;;
    _compare_multiline_text e o
  else if String.eqb key "application/json" then
    e <- getitem exec_data key ;;
    o <- getitem original_data key ;;
    Ok (negb (py_ne e o))
  else if String.eqb key "image/png" then
    e <- getitem exec_data key ;;
    o <- getitem original_data key ;;
    if py_ne e o then Ok false
    else
      em <- get exec_metadata key ;;
      om <- get original_metadata key ;;
      Ok (negb (py_ne em om))
  else Ok true.

Fixpoint data_keys_ok
  (exec_data exec_metadata original_data original_metadata : json)
  (ks : list string) : result bool :=
  match ks with
  | [] => Ok true
  | key :: rest =>
      ok <- data_key_ok exec_data exec_metadata
              original_data original_metadata key ;;
      if ok then
        data_keys_ok exec_data exec_metadata
          original_data original_metadata rest
      else Ok false
  end.

Definition _test_match_execute_result (exec_output original_output : json)
  : result bool :=
  exec_data <- getitem exec_output "data" ;;
  exec_metadata <- getitem exec_output "metadata" ;;
  original_data <- getitem original_output "data" ;;
  original_metadata <- getitem original_output "metadata" ;;
  eks <- keys exec_data ;;
  oks <- keys original_data ;;
  if negb (keys_eq eks oks) then Ok false
  else
    data_keys_ok exec_data exec_metadata
      original_data original_metadata eks.

(** The [match exec_output["output_type"]] statement; a subject that equals
    none of the literals runs no branch. *)
Definition match_by_kind (kind exec_output original_output : json)
  : result bool :=
  match kind with
  | JStr k =>
      if String.eqb k "stream" then
        _test_match_stream exec_output original_output
      else if String.eqb k "error" then
        _test_match_error exec_output original_output
      else if String.eqb k "display_data" || String.eqb k "execute_result" then
        _test_match_execute_result exec_output original_output
      else Ok true
  | _ => Ok true
  end.

(** One iteration of the loop of [test_match]. *)
Definition match_output_pair (exec_output original_output : json)
  : result bool :=
  et <- getitem exec_output "output_type" ;;
  ot <- getitem original_output "output_type" ;;
  if py_ne et ot then Ok false
  else match_by_kind et exec_output original_output.

Fixpoint match_output_pairs (pairs : list (json * json)) : result bool :=
  match pairs with
  | [] => Ok true
  | (exec_output, original_output) :: rest =>
      ok <- match_output_pair exec_output original_output ;;
      if ok then match_output_pairs rest else Ok false
  end.

Definition test_match (self : CodeCell) (exec_outputs : list json)
  : result bool :=
  if negb (Nat.eqb (length exec_outputs) (length (original_outputs self)))
  then Ok false
  else match_output_pairs (combine exec_outputs (original_outputs self)).

(** [l[-1]] *)
Definition last_item (l : list json) : result json :=
  match rev l with
  | [] => Raise IndexError
  | x :: _ => Ok x
  end.

(** [report_error] returns the value it hands to [print]. *)
Definition report_error (error_msg : json) : result json :=
  traceback <- getitem error_msg "traceback" ;;
  match traceback with
  | JList l => s <- join newline l ;; Ok (JStr s)
  | _ => Ok traceback
  end.

(** The executor maps a source text to the fresh output records and the
    [errored] flag. *)
Definition Executor : Type := string -> list json * bool.

(** [CodeCell.test]: the first component lists the values printed, the
    second is the returned boolean or the exception that escapes. *)
Definition test (self : CodeCell) (executor : Executor)
  (verbose match_output : bool) : list json * result bool :=
  let '(exec_outputs, errored) := executor (source self) in
  if errored then
    if verbose then
      match (m <- last_item exec_outputs ;; report_error m) with
      | Ok printed => ([printed], Ok false)
      | Raise e => ([], Raise e)
      end
    else ([], Ok false)
  else if match_output then ([], test_match self exec_outputs)
  else ([], Ok true).

(** ** [MarkdownCell] *)

Record MarkdownCell : Type := {
  md_source : string;
  md_metadata : json;
  md_cell_id : option string
}.

Definition md_test (self : MarkdownCell) (executor : Executor)
  (verbose match_output : bool) : bool := true.

(** ** [Tester]

    [Notebook] and [Kernel] live in modules that are not part of the
    embedded sources; the driver only calls [notebook.test] inside the
    context manager [kernel.client_factory()], so both are parameters
    and the run is described by the events it performs. *)

Section TesterModel.

Variable Notebook : Type.

(** [notebook.test(executor, seed, verbose, match_output)]; the
    executor is the session opened for this notebook.  The seed is the
    integer of [--seed] or the float of [time.time()]. *)
Variable notebook_test : Notebook -> json -> bool -> bool -> result bool.

Record Tester : Type := {
  num_threads : Z;
  notebooks : list Notebook;
  seed : json;
  verbose : bool;
  match_output : bool
}.

Inductive event : Type :=
| Print (s : string)
| SessionEnter
| NotebookTest (nb : Notebook) (ok : result bool)
| SessionExit.

(** What [notebook.test] answers under the settings of [self]. *)
Definition outcome (self : Tester) (notebook : Notebook) : result bool :=
  notebook_test notebook (seed self) (verbose self) (match_output self).

(** [Tester.test_notebook]: the [with] block releases the session on
    every exit; the boolean of [notebook.test] is dropped and the
    method returns [None]. *)
Definition test_notebook (self : Tester) (notebook : Notebook)
  : list event * result unit :=
  let r := outcome self notebook in
  ([SessionEnter; NotebookTest notebook r; SessionExit],
   match r with
   | Ok _ => Ok tt
   | Raise e => Raise e
   end).

Fixpoint test_loop (self : Tester) (nbs : list Notebook)
  : list event * result unit :=
  match nbs with
  | [] => ([], Ok tt)
  | notebook :: rest =>
      let '(evs, r) := test_notebook self notebook in
      match r with
      | Ok _ =>
          let '(evs', r') := test_loop self rest in (evs ++ evs', r')
      | Raise e => (evs, Raise e)
      end
  end.

(** [Tester.test] *)
Definition tester_test (self : Tester) : list event * result unit :=
  let '(evs, r) := test_loop self (notebooks self) in
  (Print ("Testing" ++ newline) :: evs, r).

(** The notebooks whose test a run has called, in call order. *)
Fixpoint tested (evs : list event) : list Notebook :=
  match evs with
  | [] => []
  | NotebookTest nb _ :: rest => nb :: tested rest
  | _ :: rest => tested rest
  end.

(** No notebook of [self] raises out of its test. *)
Definition all_return (self : Tester) : Prop :=
  forall nb, In nb (notebooks self) -> exists b, outcome self nb = Ok b.

End TesterModel.

Arguments num_threads {Notebook} _.
Arguments notebooks {Notebook} _.
Arguments seed {Notebook} _.
Arguments verbose {Notebook} _.
Arguments match_output {Notebook} _.
Arguments Print {Notebook} s.
Arguments SessionEnter {Notebook}.
Arguments SessionExit {Notebook}.
Arguments NotebookTest {Notebook} nb ok.
Arguments test_notebook {Notebook} notebook_test self notebook.
Arguments test_loop {Notebook} notebook_test self nbs.
Arguments tester_test {Notebook} notebook_test self.
Arguments tested {Notebook} evs.
Arguments outcome {Notebook} notebook_test self notebook.
Arguments all_return {Notebook} notebook_test self.

(** A tester for the examples: a notebook is the boolean its test returns. *)
Definition answers (nb : bool) (_ : json) (_ _ : bool) : result bool :=
  Ok nb.

(** A test that raises on the notebook [false]. *)
Definition raises_on_false (nb : bool) (_ : json) (_ _ : bool)
  : result bool :=
  if nb then Ok true else Raise KeyError.

Definition tester_of (threads : Z) (nbs : list bool) : Tester bool :=
  {| num_threads := threads; notebooks := nbs; seed := JNum 0;
     verbose := false; match_output := false |}.

(** * Well-formed values and records *)

Fixpoint distinct (ks : list string) : bool :=
  match ks with
  | [] => true
  | k :: rest => negb (existsb (String.eqb k) rest) && distinct rest
  end.

(** A value Python can hold: the keys of every dict in it are pairwise
    distinct. *)
Fixpoint valid (j : json) : bool :=
  match j with
  | JList l => forallb valid l
  | JDict d =>
      distinct (dict_keys d) && forallb (fun kv => valid (snd kv)) d
  | _ => true
  end.

(** No [NaN] anywhere in the value. *)
Fixpoint nan_free (j : json) : bool :=
  match j with
  | JFloat FNaN => false
  | JList l => forallb nan_free l
  | JDict d => forallb (fun kv => nan_free (snd kv)) d
  | _ => true
  end.

Definition is_str (j : json) : bool :=
  match j with
  | JStr _ => true
  | _ => false
  end.

(** A multi-line text field: when it is a list, its items are strings. *)
Definition joinable (t : json) : bool :=
  match t with
  | JList l => forallb is_str l
  | _ => true
  end.

Definition has_key {V : Type} (k : string) (d : list (string * V)) : bool :=
  match dict_get k d with
  | Some _ => true
  | None => false
  end.

(** What [wf_fields] requires of the data mapping. *)
Definition text_plain_ok (dd : list (string * json)) : bool :=
  match dict_get "text/plain" dd with
  | Some t => joinable t
  | None => true
  end.

(** The fields every comparison reads are present, per output kind, as in
    the record layouts documented in [cell.py].  Kinds other than the four
    of the notebook format carry no requirement: the code reads nothing
    of them. *)
Definition wf_fields (d : list (string * json)) : bool :=
  match dict_get "output_type" d with
  | Some (JStr k) =>
      if String.eqb k "stream" then
        has_key "name" d
        && match dict_get "text" d with
           | Some t => joinable t
           | None => false
           end
      else if String.eqb k "error" then
        has_key "ename" d && has_key "evalue" d && has_key "traceback" d
      else if String.eqb k "display_data" || String.eqb k "execute_result" then
        match dict_get "data" d, dict_get "metadata" d with
        | Some (JDict dd), Some (JDict _) => text_plain_ok dd
        | _, _ => false
        end
      else true
  | _ => false
  end.

Definition wf_output (r : json) : bool :=
  valid r
  && match r with
     | JDict d => wf_fields d
     | _ => false
     end.

(** The fields of an output record that [test_match] reads. *)
Definition kind_fields : list string :=
  ["output_type"; "name"; "text"; "ename"; "evalue"; "traceback"].

Definition fields_read : list string :=
  kind_fields ++ ["data"; "metadata"].

(** Two dicts hold the same value, or both none, under each listed key. *)
Definition same_fields (fs : list string) (d d' : list (string * json))
  : Prop :=
  forall f, In f fs -> dict_get f d = dict_get f d'.

(** [r'] is [r] but for the value, or the presence, of the
    [execution_count] field. *)
Definition differ_only_in_execution_count (r r' : json) : Prop :=
  exists d d',
    r = JDict d /\ r' = JDict d'
    /\ forall f, f <> "execution_count" -> dict_get f d = dict_get f d'.

(** The content-type labels [_test_match_execute_result] has a [case] for. *)
Definition recognized (key : string) : bool :=
  String.eqb key "text/plain"
  || String.eqb key "application/json"
  || String.eqb key "image/png".

(** [r'] is [r] but for the value its [data] mapping holds under [key]:
    the two mappings list the same keys. *)
Definition differ_only_under_data_key (key : string) (r r' : json) : Prop :=
  exists d d' dd dd',
    r = JDict d /\ r' = JDict d'
    /\ (forall f, f <> "data" -> dict_get f d = dict_get f d')
    /\ dict_get "data" d = Some (JDict dd)
    /\ dict_get "data" d' = Some (JDict dd')
    /\ dict_keys dd = dict_keys dd'
    /\ (forall k, k <> key -> dict_get k dd = dict_get k dd').

(** A multi-line text [s], held as one string or as fragments. *)
Inductive represents : json -> string -> Prop :=
| represents_string (s : string) : represents (JStr s) s
| represents_fragments (fs : list string) :
    represents (JList (map JStr fs)) (String.concat "" fs).

(** Records laid out as the comments of [cell.py] show them. *)
Definition stream_record (name text : json) : json :=
  JDict [("output_type", JStr "stream"); ("name", name); ("text", text)].

Definition error_record (ename evalue traceback : json) : json :=
  JDict [("output_type", JStr "error"); ("ename", ename);
         ("evalue", evalue); ("traceback", traceback)].

Definition display_data_record (data metadata : list (string * json)) : json :=
  JDict [("output_type", JStr "display_data");
         ("data", JDict data); ("metadata", JDict metadata)].

Definition execute_result_record (execution_count : json)
  (data metadata : list (string * json)) : json :=
  JDict [("output_type", JStr "execute_result");
         ("execution_count", execution_count);
         ("data", JDict data); ("metadata", JDict metadata)].

Definition code_cell (src : string) (outputs : list json) : CodeCell :=
  {| source := src; original_outputs := outputs; exec_count := None;
     metadata := JDict []; cell_id := None |}.

(** Two executors for the examples: a cell that raises, a cell that
    prints. *)
Definition zero_division : json :=
  error_record (JStr "ZeroDivisionError") (JStr "division by zero")
    (JList [JStr "Traceback"; JStr "ZeroDivisionError"]).

Definition failing_executor : Executor :=
  fun _ => ([zero_division], true).

Definition printing_executor : Executor :=
  fun _ => ([stream_record (JStr "stdout") (JStr "1")], false).

(** An [execute_result] whose structured value is [NaN], which
    [json.loads] accepts. *)
Definition nan_record (execution_count : json) : json :=
  execute_result_record execution_count
    [("application/json", JFloat FNaN)] [].

(** The recorded outputs of a cell that prints, raises and shows a
    picture. *)
Definition sample_outputs : list json :=
  [stream_record (JStr "stdout") (JList [JStr "a"; JStr "b"]);
   zero_division;
   execute_result_record (JNum 3)
     [("text/plain", JStr "<Figure>"); ("image/png", JStr "AAA");
      ("application/json", JDict [("n", JNum 1); ("ok", JBool true)])]
     [("image/png", JDict [("width", JNum 640); ("height", JNum 480)])]].

(** [sample_outputs] as a later run returns them: the stream text in
    one piece, the data entries in another order, another count. *)
Definition replayed_outputs : list json :=
  [stream_record (JStr "stdout") (JStr "ab");
   zero_division;
   execute_result_record (JNum 7)
     [("image/png", JStr "AAA");
      ("application/json", JDict [("ok", JNum 1); ("n", JNum 1)]);
      ("text/plain", JList [JStr "<Fig"; JStr "ure>"])]
     [("image/png", JDict [("height", JNum 480); ("width", JNum 640)])]].

(** * The command line run

    [argparse] is outside the embedding: [cli] starts from what the
    command line gives, an option that is absent being [None], and fills
    in the defaults the parser is built with.  [Notebook(path)] followed
    by [load_notebook()] is a parameter, as is the exception it may
    raise. *)

Section RunModel.

Variable Path : Type.
Variable Notebook : Type.
Variable LoadError : Type.

(** [nb = Notebook(path); nb.load_notebook()] *)
Variable load_notebook : Path -> LoadError + Notebook.

Variable notebook_test : Notebook -> json -> bool -> bool -> result bool.

Record Args : Type := {
  arg_notebooks : list Path;
  arg_num_threads : option Z;
  arg_seed : option Z;
  arg_match_output : bool;
  arg_verbose : bool
}.

(** [Tester.__init__]; [now] stands for [time.time()].  The attributes
    [verbose] and [match_output] do not exist before [cli] assigns
    them; the values given here are never read. *)
Definition tester_init (now : pyfloat) : Tester Notebook :=
  {| num_threads := 1; notebooks := []; seed := JFloat now;
     verbose := false; match_output := false |}.

(** The loop of [cli]: each notebook is appended to [self.notebooks] as
    soon as it is loaded; the first exception ends the loop and leaves
    the notebooks appended so far. *)
Fixpoint load_notebooks (loaded : list Notebook) (paths : list Path)
  : list Notebook * option LoadError :=
  match paths with
  | [] => (loaded, None)
  | path :: rest =>
      match load_notebook path with
      | inl e => (loaded, Some e)
      | inr nb => load_notebooks (loaded ++ [nb]) rest
      end
  end.

(** [Tester.cli]: the object after the call, and the exception that
    escapes, if any.  [--num-threads] and [--seed] default to the
    attributes [__init__] has set. *)
Definition cli (self : Tester Notebook) (args : Args)
  : Tester Notebook * option LoadError :=
  let '(nbs, err) := load_notebooks (notebooks self) (arg_notebooks args) in
  ({| num_threads := match arg_num_threads args with
                      | Some j => j
                      | None => num_threads self
                      end;
      notebooks := nbs;
      seed := match arg_seed args with
              | Some s => JNum s
              | None => seed self
              end;
      verbose := arg_verbose args;
      match_output := arg_match_output args |},
   err).

(** [run_tester] *)
Definition run_tester (now : pyfloat) (args : Args)
  : list (event Notebook) * (LoadError + result unit) :=
  let '(tester, err) := cli (tester_init now) args in
  match err with
  | Some e => ([], inl e)
  | None =>
      let '(evs, r) := tester_test notebook_test tester in (evs, inr r)
  end.

(** The notebooks of the paths that load, up to the first that does
    not. *)
Fixpoint loaded_prefix (paths : list Path) : list Notebook :=
  match paths with
  | [] => []
  | path :: rest =>
      match load_notebook path with
      | inl _ => []
      | inr nb => nb :: loaded_prefix rest
      end
  end.

(** The exception of the first path that does not load. *)
Fixpoint first_load_error (paths : list Path) : option LoadError :=
  match paths with
  | [] => None
  | path :: rest =>
      match load_notebook path with
      | inl e => Some e
      | inr _ => first_load_error rest
      end
  end.

End RunModel.

Arguments arg_notebooks {Path} _.
Arguments arg_num_threads {Path} _.
Arguments arg_seed {Path} _.
Arguments arg_match_output {Path} _.
Arguments arg_verbose {Path} _.
Arguments load_notebooks {Path Notebook LoadError} load_notebook loaded paths.
Arguments cli {Path Notebook LoadError} load_notebook self args.
Arguments run_tester {Path Notebook LoadError}
  load_notebook notebook_test now args.
Arguments loaded_prefix {Path Notebook LoadError} load_notebook paths.
Arguments first_load_error {Path Notebook LoadError} load_notebook paths.

(** The tester [run_tester] tests with once every path has loaded. *)
Definition loaded_tester {Path Notebook : Type} (now : pyfloat)
  (args : Args Path) (nbs : list Notebook) : Tester Notebook :=
  {| num_threads := match arg_num_threads args with
                    | Some j => j
                    | None => 1
                    end;
     notebooks := nbs;
     seed := match arg_seed args with
             | Some s => JNum s
             | None => JFloat now
             end;
     verbose := arg_verbose args;
     match_output := arg_match_output args |}.

(** A start time for the examples: 1.5 * 2^30 seconds. *)
Definition start_time : pyfloat := FFinite 3 29.

(** Paths for the examples: a path loads iff it is [true]. *)
Definition loads (path : bool) : string + bool :=
  if path then inr true else inl "malformed".

(** The output kinds [test_match] has a [case] for. *)
Definition known_kind (k : string) : bool :=
  String.eqb k "stream" || String.eqb k "error"
  || String.eqb k "display_data" || String.eqb k "execute_result".

(** [r2] is [r] with the entries of its [data] mapping listed in
    another order. *)
Definition data_reordered (r r2 : json) : Prop :=
  exists d d2 dd dd2,
    r = JDict d /\ r2 = JDict d2
    /\ (forall f, f <> "data" -> dict_get f d = dict_get f d2)
    /\ dict_get "data" d = Some (JDict dd)
    /\ dict_get "data" d2 = Some (JDict dd2)
    /\ forall k, dict_get k dd = dict_get k dd2.

(** * Building cells from notebook dicts

    [from_nb] receives whatever the JSON document holds, and Python
    checks no annotation: the cell it builds keeps the values as they
    are.  [assert] statements are taken as executed (no [-O]). *)

Inductive nb_exn : Type :=
| AssertionError
| Uncaught (e : exn).

Inductive built (A : Type) : Type :=
| Built (a : A)
| Failed (e : nb_exn).

Arguments Built {A} a.
Arguments Failed {A} e.

Definition and_then {A B : Type} (m : built A) (k : A -> built B) : built B :=
  match m with
  | Built a => k a
  | Failed e => Failed e
  end.

Notation "x <~ m ;; k" := (and_then m (fun x => k))
  (at level 61, m at next level, right associativity).

Definition lift {A : Type} (m : result A) : built A :=
  match m with
  | Ok a => Built a
  | Raise e => Failed (Uncaught e)
  end.

(** [assert b] *)
Definition py_assert (b : bool) : built unit :=
  if b then Built tt else Failed AssertionError.

(** [bool(x)] *)
Definition truthy (x : json) : bool :=
  match x with
  | JNull => false
  | JBool b => b
  | JNum n => negb (Z.eqb n 0)
  | JFloat f => negb (float_eqb f (float_of_Z 0))
  | JStr s => negb (String.eqb s "")
  | JList l => negb (Nat.eqb (length l) 0)
  | JDict d => negb (Nat.eqb (length d) 0)
  end.

(** [key in x]: membership among the keys of a dict, among the items
    of a list, substring test on a string; other values are not
    containers. *)
Definition contains (key : string) (x : json) : result bool :=
  match x with
  | JDict d => Ok (has_key key d)
  | JList l => Ok (existsb (fun item => py_eq item (JStr key)) l)
  | JStr s =>
      Ok (match String.index 0 key s with
          | Some _ => true
          | None => false
          end)
  | _ => Raise TypeError
  end.

(** [for key in ks: assert key in nb] *)
Fixpoint assert_keys (nb : json) (ks : list string) : built unit :=
  match ks with
  | [] => Built tt
  | key :: rest =>
      present <~ lift (contains key nb) ;;
      _ <~ py_assert present ;;
      assert_keys nb rest
  end.

(** The attributes of a [CodeCell] object as [__init__] stores them. *)
Record CodeCellObject : Type := {
  obj_source : json;
  obj_original_outputs : json;
  obj_exec_count : json;
  obj_metadata : json;
  obj_cell_id : json
}.

(** [CodeCell.from_nb]; [notebook] is the truth value of the object
    passed as the owning notebook. *)
Definition from_nb (nb : json) (notebook : bool) : built CodeCellObject :=
  _ <~ py_assert (truthy nb) ;;
  _ <~ py_assert notebook ;;
  _ <~ assert_keys nb
         ["cell_type"; "execution_count"; "metadata"; "source"; "outputs"] ;;
  cell_type <~ lift (getitem nb "cell_type") ;;
  _ <~ py_assert (py_eq cell_type (JStr "code")) ;;
  src <~ lift (getitem nb "source") ;;
  src' <~ lift (join_if_list src) ;;
  outputs <~ lift (getitem nb "outputs") ;;
  execution_count <~ lift (getitem nb "execution_count") ;;
  meta <~ lift (getitem nb "metadata") ;;
  id <~ lift (get nb "id") ;;
  Built {| obj_source := src'; obj_original_outputs := outputs;
           obj_exec_count := execution_count; obj_metadata := meta;
           obj_cell_id := id |}.

(** The attributes of a [MarkdownCell] object. *)
Record MarkdownCellObject : Type := {
  mdobj_source : json;
  mdobj_metadata : json;
  mdobj_cell_id : json
}.

(** [MarkdownCell.from_nb] *)
Definition md_from_nb (nb : json) : built MarkdownCellObject :=
  _ <~ py_assert (truthy nb) ;;
  _ <~ assert_keys nb ["cell_type"; "metadata"; "source"] ;;
  cell_type <~ lift (getitem nb "cell_type") ;;
  _ <~ py_assert (py_eq cell_type (JStr "markdown")) ;;
  src <~ lift (getitem nb "source") ;;
  src' <~ lift (join_if_list src) ;;
  meta <~ lift (getitem nb "metadata") ;;
  id <~ lift (get nb "id") ;;
  Built {| mdobj_source := src'; mdobj_metadata := meta;
           mdobj_cell_id := id |}.

(** A typed cell and the object [from_nb] built agree on the two
    attributes [CodeCell.test] reads. *)
Definition cell_of_object (obj : CodeCellObject) (self : CodeCell) : Prop :=
  obj_source obj = JStr (source self)
  /\ obj_original_outputs obj = JList (original_outputs self).

(** A code cell as a notebook document holds it. *)
Definition code_cell_fields (src outputs : json) : list (string * json) :=
  [("cell_type", JStr "code"); ("execution_count", JNum 1);
   ("id", JStr "c0ffee"); ("metadata", JDict []);
   ("source", src); ("outputs", outputs)].

Definition code_cell_dict (src outputs : json) : json :=
  JDict (code_cell_fields src outputs).

(** * Structural induction on values *)

Section json_induction.

Variable P : json -> Prop.
Hypothesis P_null : P JNull.
Hypothesis P_bool : forall b, P (JBool b).
Hypothesis P_num : forall n, P (JNum n).
Hypothesis P_float : forall f, P (JFloat f).
Hypothesis P_str : forall s, P (JStr s).
Hypothesis P_list : forall l, (forall x, In x l -> P x) -> P (JList l).
Hypothesis P_dict :
  forall d, (forall k v, In (k, v) d -> P v) -> P (JDict d).

Fixpoint json_ind (j : json) : P j :=
  match j with
  | JNull => P_null
  | JBool b => P_bool b
  | JNum n => P_num n
  | JFloat f => P_float f
  | JStr s => P_str s
  | JList l =>
      P_list l
        ((fix items (l : list json) : forall x, In x l -> P x :=
            match l with
            | [] => fun x (H : In x []) => match H with end
            | y :: ys => fun x (H : In x (y :: ys)) =>
                match H with
                | or_introl e => eq_ind y P (json_ind y) x e
                | or_intror H' => items ys x H'
                end
            end) l)
  | JDict d =>
      P_dict d
        ((fix fields (d : list (string * json))
            : forall k v, In (k, v) d -> P v :=
            match d with
            | [] => fun k v (H : In (k, v) []) => match H with end
            | kv :: rest => fun k v (H : In (k, v) (kv :: rest)) =>
                match H with
                | or_introl e =>
                    eq_ind (snd kv) P (json_ind (snd kv)) v
                      (f_equal snd e)
                | or_intror H' => fields rest k v H'
                end
            end) d)
  end.

End json_induction.

(** * Dictionaries: lookup facts *)

Lemma existsb_eqb_In (k : string) (l : list string) :
  existsb (String.eqb k) l = true <-> In k l.
Proof.
  rewrite existsb_exists. split.
  - intros [x [Hin Heq]]. apply String.eqb_eq in Heq. now subst.
  - intros Hin. exists k. split; [assumption | apply String.eqb_refl].
Qed.

Lemma dict_get_Some_In {V : Type} (k : string) (d : list (string * V)) v :
  dict_get k d = Some v -> In (k, v) d.
Proof.
  induction d as [|[k' v'] rest IH]; simpl; [discriminate|].
  destruct (String.eqb k k') eqn:E.
  - apply String.eqb_eq in E. intros [= ->]. subst. now left.
  - intros H. right. auto.
Qed.

Lemma dict_get_keys {V : Type} (k : string) (d : list (string * V)) :
  In k (dict_keys d) <-> exists v, dict_get k d = Some v.
Proof.
  induction d as [|[k' v'] rest IH]; simpl.
  - split; [tauto | intros [v H]; discriminate].
  - destruct (String.eqb k k') eqn:E.
    + apply String.eqb_eq in E. subst. split; eauto.
    + apply String.eqb_neq in E. rewrite <- IH. split; [|tauto].
      intros [H|H]; [congruence | assumption].
Qed.

Lemma dict_get_distinct {V : Type} (k : string) (v : V) d :
  distinct (dict_keys d) = true -> In (k, v) d -> dict_get k d = Some v.
Proof.
  induction d as [|[k' v'] rest IH]; simpl; [tauto|].
  rewrite andb_true_iff, negb_true_iff. intros [Hnew Hrest] [Heq|Hin].
  - injection Heq as -> ->. now rewrite String.eqb_refl.
  - destruct (String.eqb k k') eqn:E; [|auto].
    apply String.eqb_eq in E. subst k'.
    assert (existsb (String.eqb k) (dict_keys rest) = true) as Hk.
    { apply existsb_eqb_In. unfold dict_keys.
      change k with (fst (k, v)). now apply in_map. }
    congruence.
Qed.

(** * [==] is reflexive on valid values that hold no [NaN] *)

Lemma float_eqb_refl (f : pyfloat) : f <> FNaN -> float_eqb f f = true.
Proof.
  destruct f as [|negative|m e]; simpl; intros H.
  - now elim H.
  - apply Bool.eqb_reflx.
  - apply Z.eqb_refl.
Qed.

Lemma py_eq_refl (j : json) :
  valid j = true -> nan_free j = true -> py_eq j j = true.
Proof.
  induction j as [| b | n | f | s | l IH | d IH] using json_ind;
    simpl; intros Hv Hn.
  - reflexivity.
  - apply Bool.eqb_reflx.
  - apply Z.eqb_refl.
  - apply float_eqb_refl. intros ->. discriminate.
  - apply String.eqb_refl.
  - induction l as [|x xs IHxs]; [reflexivity|].
    simpl in Hv, Hn.
    apply andb_true_iff in Hv as [Hx Hxs], Hn as [Hnx Hnxs].
    rewrite (IH x (or_introl eq_refl) Hx Hnx). simpl.
    apply IHxs; [|assumption|assumption].
    intros y Hy. apply IH. now right.
  - apply andb_true_iff in Hv as [Hkeys Hvals].
    rewrite Nat.eqb_refl. simpl.
    apply forallb_forall. intros [k v] Hin. simpl.
    rewrite (dict_get_distinct k v d Hkeys Hin).
    rewrite forallb_forall in Hvals, Hn.
    apply (IH k v Hin (Hvals (k, v) Hin) (Hn (k, v) Hin)).
Qed.

Lemma nan_free_dict_get (d : list (string * json)) k v :
  nan_free (JDict d) = true -> dict_get k d = Some v -> nan_free v = true.
Proof.
  simpl. rewrite forallb_forall. intros Hall Hget.
  apply (Hall (k, v)). now apply dict_get_Some_In.
Qed.

(** * The comparisons never raise on well-formed records *)

Lemma valid_dict_get (d : list (string * json)) k v :
  valid (JDict d) = true -> dict_get k d = Some v -> valid v = true.
Proof.
  simpl. rewrite andb_true_iff, forallb_forall. intros [_ Hall] Hget.
  apply (Hall (k, v)). now apply dict_get_Some_In.
Qed.

Lemma getitem_dict (d : list (string * json)) k v :
  dict_get k d = Some v -> getitem (JDict d) k = Ok v.
Proof. intros H. simpl. now rewrite H. Qed.

Lemma has_key_get {V : Type} k (d : list (string * V)) :
  has_key k d = true -> exists v, dict_get k d = Some v.
Proof. unfold has_key. destruct (dict_get k d); [eauto | discriminate]. Qed.

Lemma str_items_total (l : list json) :
  forallb is_str l = true -> exists ss, str_items l = Ok ss.
Proof.
  induction l as [|x xs IH]; simpl; [eauto|].
  rewrite andb_true_iff. intros [Hx Hxs].
  destruct x; try discriminate.
  destruct (IH Hxs) as [ss ->]. simpl. eauto.
Qed.

Lemma join_if_list_total (t : json) :
  joinable t = true ->
  exists t', join_if_list t = Ok t'
             /\ (valid t = true -> valid t' = true).
Proof.
  destruct t; simpl; eauto.
  intros H. unfold join. destruct (str_items_total _ H) as [ss ->].
  simpl. eauto.
Qed.

Lemma compare_multiline_text_total (a b : json) :
  joinable a = true -> joinable b = true ->
  exists r, _compare_multiline_text a b = Ok r.
Proof.
  intros Ha Hb. unfold _compare_multiline_text.
  destruct (join_if_list_total a Ha) as [a' [-> _]].
  destruct (join_if_list_total b Hb) as [b' [-> _]].
  simpl. eauto.
Qed.

Lemma join_if_list_nan_free (t t' : json) :
  join_if_list t = Ok t' -> nan_free t = true -> nan_free t' = true.
Proof.
  destruct t; simpl; try (intros [= <-]; auto).
  destruct (join "" items); [|discriminate]. now intros [= <-].
Qed.

Lemma compare_multiline_text_refl (t : json) :
  joinable t = true -> valid t = true -> nan_free t = true ->
  _compare_multiline_text t t = Ok true.
Proof.
  intros Hj Hv Hn. unfold _compare_multiline_text.
  destruct (join_if_list_total t Hj) as [t' [Ht' Hv']].
  rewrite Ht'. cbn [bind].
  now rewrite (py_eq_refl t' (Hv' Hv) (join_if_list_nan_free t t' Ht' Hn)).
Qed.

Lemma data_key_ok_total dd md dd' md' key :
  In key (dict_keys dd) -> In key (dict_keys dd') ->
  text_plain_ok dd = true -> text_plain_ok dd' = true ->
  exists b,
    data_key_ok (JDict dd) (JDict md) (JDict dd') (JDict md') key = Ok b.
Proof.
  intros Hk Hk' Ht Ht'.
  apply dict_get_keys in Hk as [v Hv]. apply dict_get_keys in Hk' as [v' Hv'].
  unfold data_key_ok.
  rewrite (getitem_dict _ _ _ Hv), (getitem_dict _ _ _ Hv'). simpl.
  destruct (String.eqb key "text/plain") eqn:E1.
  - apply String.eqb_eq in E1. subst key.
    unfold text_plain_ok in Ht, Ht'. rewrite Hv in Ht. rewrite Hv' in Ht'.
    now apply compare_multiline_text_total.
  - destruct (String.eqb key "application/json"); [eauto|].
    destruct (String.eqb key "image/png"); [|eauto].
    destruct (py_ne v v'); [eauto|].
    destruct (dict_get key md), (dict_get key md'); simpl; eauto.
Qed.

Lemma data_keys_ok_total dd md dd' md' ks :
  (forall k, In k ks -> In k (dict_keys dd) /\ In k (dict_keys dd')) ->
  text_plain_ok dd = true -> text_plain_ok dd' = true ->
  exists b,
    data_keys_ok (JDict dd) (JDict md) (JDict dd') (JDict md') ks = Ok b.
Proof.
  intros Hks Ht Ht'. induction ks as [|k ks IH]; simpl; [eauto|].
  destruct (Hks k (or_introl eq_refl)) as [Hk Hk'].
  destruct (data_key_ok_total dd md dd' md' k Hk Hk' Ht Ht') as [b ->].
  simpl. destruct b; [|eauto].
  apply IH. intros k' Hin. apply Hks. now right.
Qed.

Lemma keys_eq_incl (a b : list string) :
  keys_eq a b = true -> forall k, In k a -> In k b.
Proof.
  unfold keys_eq. rewrite andb_true_iff, forallb_forall.
  intros [_ H] k Hin. apply existsb_eqb_In. auto.
Qed.

Lemma keys_eq_refl (a : list string) : keys_eq a a = true.
Proof.
  unfold keys_eq. rewrite Nat.eqb_refl. simpl.
  apply forallb_forall. intros k Hin. now apply existsb_eqb_In.
Qed.

Lemma test_match_execute_result_total d d' dd md dd' md' :
  dict_get "data" d = Some (JDict dd) ->
  dict_get "metadata" d = Some (JDict md) ->
  dict_get "data" d' = Some (JDict dd') ->
  dict_get "metadata" d' = Some (JDict md') ->
  text_plain_ok dd = true -> text_plain_ok dd' = true ->
  exists b, _test_match_execute_result (JDict d) (JDict d') = Ok b.
Proof.
  intros Hd Hm Hd' Hm' Ht Ht'. unfold _test_match_execute_result.
  rewrite (getitem_dict _ _ _ Hd), (getitem_dict _ _ _ Hm),
    (getitem_dict _ _ _ Hd'), (getitem_dict _ _ _ Hm'). simpl.
  destruct (keys_eq (dict_keys dd) (dict_keys dd')) eqn:E; simpl; [|eauto].
  apply data_keys_ok_total; auto.
  intros k Hin. split; [assumption|]. eapply keys_eq_incl; eauto.
Qed.

Lemma all_fields_equal_total d d' ks :
  (forall k, In k ks -> has_key k d = true /\ has_key k d' = true) ->
  exists b, all_fields_equal (JDict d) (JDict d') ks = Ok b.
Proof.
  induction ks as [|k ks IH]; intros H; [simpl; eauto|].
  destruct (H k (or_introl eq_refl)) as [Hk Hk'].
  apply has_key_get in Hk as [v Hv]. apply has_key_get in Hk' as [v' Hv'].
  cbn [all_fields_equal].
  rewrite (getitem_dict _ _ _ Hv), (getitem_dict _ _ _ Hv'). cbn [bind].
  destruct (py_eq v v'); [|eauto].
  apply IH. intros k' Hin. apply H. now right.
Qed.

Lemma test_match_stream_total d d' t t' :
  has_key "name" d = true -> has_key "name" d' = true ->
  dict_get "text" d = Some t -> dict_get "text" d' = Some t' ->
  joinable t = true -> joinable t' = true ->
  exists b, _test_match_stream (JDict d) (JDict d') = Ok b.
Proof.
  intros Hn Hn' Ht Ht' Hj Hj'.
  apply has_key_get in Hn as [n Hn]. apply has_key_get in Hn' as [n' Hn'].
  unfold _test_match_stream.
  rewrite (getitem_dict _ _ _ Hn), (getitem_dict _ _ _ Hn'),
    (getitem_dict _ _ _ Ht), (getitem_dict _ _ _ Ht'). cbn [bind].
  destruct (py_ne n n'); [eauto|].
  now apply compare_multiline_text_total.
Qed.

Lemma wf_output_inv (r : json) :
  wf_output r = true ->
  exists d k, r = JDict d /\ valid (JDict d) = true
              /\ wf_fields d = true
              /\ dict_get "output_type" d = Some (JStr k).
Proof.
  unfold wf_output. rewrite andb_true_iff. intros [Hv Hf].
  destruct r; try discriminate. exists fields.
  assert (exists k, dict_get "output_type" fields = Some (JStr k)) as [k Hk].
  { unfold wf_fields in Hf.
    destruct (dict_get "output_type" fields) as [[]|]; try discriminate.
    eauto. }
  exists k. auto.
Qed.

Lemma match_by_kind_total d d' k :
  wf_fields d = true -> wf_fields d' = true ->
  dict_get "output_type" d = Some (JStr k) ->
  dict_get "output_type" d' = Some (JStr k) ->
  exists b, match_by_kind (JStr k) (JDict d) (JDict d') = Ok b.
Proof.
  unfold wf_fields. intros Hf Hf' Hk Hk'. rewrite Hk in Hf. rewrite Hk' in Hf'.
  simpl. destruct (String.eqb k "stream").
  - apply andb_true_iff in Hf as [Hn Ht], Hf' as [Hn' Ht'].
    destruct (dict_get "text" d) as [t|] eqn:Et; [|discriminate].
    destruct (dict_get "text" d') as [t'|] eqn:Et'; [|discriminate].
    eapply test_match_stream_total; eauto.
  - destruct (String.eqb k "error").
    + repeat rewrite andb_true_iff in Hf, Hf'.
      apply all_fields_equal_total. simpl.
      intros key [<-|[<-|[<-|[]]]]; tauto.
    + destruct (String.eqb k "display_data" || String.eqb k "execute_result");
        [|eauto].
      destruct (dict_get "data" d) as [[]|] eqn:Ed; try discriminate.
      destruct (dict_get "metadata" d) as [[]|] eqn:Em; try discriminate.
      destruct (dict_get "data" d') as [[]|] eqn:Ed'; try discriminate.
      destruct (dict_get "metadata" d') as [[]|] eqn:Em'; try discriminate.
      eapply test_match_execute_result_total; eauto.
Qed.

Lemma match_output_pair_total (e o : json) :
  wf_output e = true -> wf_output o = true ->
  exists b, match_output_pair e o = Ok b.
Proof.
  intros He Ho.
  apply wf_output_inv in He as (d & k & -> & _ & Hf & Hk).
  apply wf_output_inv in Ho as (d' & k' & -> & _ & Hf' & Hk').
  unfold match_output_pair.
  rewrite (getitem_dict _ _ _ Hk), (getitem_dict _ _ _ Hk'). simpl bind.
  unfold py_ne. simpl py_eq.
  destruct (String.eqb k k') eqn:E; simpl negb; cbv iota; [|eauto].
  apply String.eqb_eq in E. subst k'.
  now apply match_by_kind_total.
Qed.

(** * Comparing a well-formed record with itself *)

Lemma data_key_ok_refl dd md key :
  In key (dict_keys dd) -> valid (JDict dd) = true ->
  valid (JDict md) = true -> text_plain_ok dd = true ->
  nan_free (JDict dd) = true -> nan_free (JDict md) = true ->
  data_key_ok (JDict dd) (JDict md) (JDict dd) (JDict md) key = Ok true.
Proof.
  intros Hk Hv Hm Ht Hn Hnm. apply dict_get_keys in Hk as [v Hget].
  pose proof (valid_dict_get _ _ _ Hv Hget) as Hvv.
  pose proof (nan_free_dict_get _ _ _ Hn Hget) as Hnv.
  unfold data_key_ok, py_ne.
  rewrite (getitem_dict _ _ _ Hget). cbn [bind].
  rewrite (py_eq_refl v Hvv Hnv). cbn [negb].
  destruct (String.eqb key "text/plain") eqn:E1.
  - apply String.eqb_eq in E1. subst key.
    unfold text_plain_ok in Ht. rewrite Hget in Ht.
    now apply compare_multiline_text_refl.
  - destruct (String.eqb key "application/json"); [reflexivity|].
    destruct (String.eqb key "image/png"); [|reflexivity].
    unfold get. destruct (dict_get key md) as [m|] eqn:Em; cbn [bind].
    + now rewrite (py_eq_refl m (valid_dict_get _ _ _ Hm Em)
                     (nan_free_dict_get _ _ _ Hnm Em)).
    + reflexivity.
Qed.

Lemma data_keys_ok_refl dd md ks :
  (forall k, In k ks -> In k (dict_keys dd)) ->
  valid (JDict dd) = true -> valid (JDict md) = true ->
  text_plain_ok dd = true ->
  nan_free (JDict dd) = true -> nan_free (JDict md) = true ->
  data_keys_ok (JDict dd) (JDict md) (JDict dd) (JDict md) ks = Ok true.
Proof.
  intros Hks Hv Hm Ht Hn Hnm. induction ks as [|k ks IH]; [reflexivity|].
  cbn [data_keys_ok].
  rewrite data_key_ok_refl by (auto; apply Hks; now left).
  cbn [bind]. apply IH. intros k' Hin. apply Hks. now right.
Qed.

Lemma all_fields_equal_refl d ks :
  valid (JDict d) = true -> nan_free (JDict d) = true ->
  (forall k, In k ks -> has_key k d = true) ->
  all_fields_equal (JDict d) (JDict d) ks = Ok true.
Proof.
  intros Hv Hn. induction ks as [|k ks IH]; intros H; [reflexivity|].
  destruct (has_key_get _ _ (H k (or_introl eq_refl))) as [v Hget].
  cbn [all_fields_equal]. rewrite (getitem_dict _ _ _ Hget). cbn [bind].
  rewrite (py_eq_refl v (valid_dict_get _ _ _ Hv Hget)
             (nan_free_dict_get _ _ _ Hn Hget)).
  apply IH. intros k' Hin. apply H. now right.
Qed.

Lemma match_by_kind_refl d k :
  valid (JDict d) = true -> nan_free (JDict d) = true ->
  wf_fields d = true ->
  dict_get "output_type" d = Some (JStr k) ->
  match_by_kind (JStr k) (JDict d) (JDict d) = Ok true.
Proof.
  unfold wf_fields. intros Hv Hnf Hf Hk. rewrite Hk in Hf.
  cbn [match_by_kind]. destruct (String.eqb k "stream").
  - apply andb_true_iff in Hf as [Hn Ht].
    apply has_key_get in Hn as [n Hn].
    destruct (dict_get "text" d) as [t|] eqn:Et; [|discriminate].
    unfold _test_match_stream, py_ne.
    rewrite (getitem_dict _ _ _ Hn), (getitem_dict _ _ _ Et). cbn [bind].
    rewrite (py_eq_refl n (valid_dict_get _ _ _ Hv Hn)
               (nan_free_dict_get _ _ _ Hnf Hn)). cbn [negb].
    apply compare_multiline_text_refl; [assumption| |].
    + exact (valid_dict_get _ _ _ Hv Et).
    + exact (nan_free_dict_get _ _ _ Hnf Et).
  - destruct (String.eqb k "error").
    + repeat rewrite andb_true_iff in Hf.
      apply all_fields_equal_refl; [assumption|assumption|]. simpl.
      intros key [<-|[<-|[<-|[]]]]; tauto.
    + destruct (String.eqb k "display_data" || String.eqb k "execute_result");
        [|reflexivity].
      destruct (dict_get "data" d) as [[| | | | | |dd]|] eqn:Ed;
        try discriminate.
      destruct (dict_get "metadata" d) as [[| | | | | |md]|] eqn:Em;
        try discriminate.
      unfold _test_match_execute_result.
      rewrite (getitem_dict _ _ _ Ed), (getitem_dict _ _ _ Em).
      cbn [bind keys]. rewrite keys_eq_refl. cbn [negb].
      apply data_keys_ok_refl; auto.
      * exact (valid_dict_get _ _ _ Hv Ed).
      * exact (valid_dict_get _ _ _ Hv Em).
      * exact (nan_free_dict_get _ _ _ Hnf Ed).
      * exact (nan_free_dict_get _ _ _ Hnf Em).
Qed.

Lemma match_output_pair_refl (r : json) :
  wf_output r = true -> nan_free r = true ->
  match_output_pair r r = Ok true.
Proof.
  intros Hr Hn. apply wf_output_inv in Hr as (d & k & -> & Hv & Hf & Hk).
  unfold match_output_pair, py_ne.
  rewrite (getitem_dict _ _ _ Hk). cbn [bind py_eq].
  rewrite String.eqb_refl. cbn [negb].
  now apply match_by_kind_refl.
Qed.

(** * The loop of [test_match] *)

Lemma match_output_pairs_true (pairs : list (json * json)) :
  match_output_pairs pairs = Ok true <->
  forall e o, In (e, o) pairs -> match_output_pair e o = Ok true.
Proof.
  induction pairs as [|[e o] rest IH]; simpl.
  - split; [intros _ e o [] | reflexivity].
  - destruct (match_output_pair e o) as [[|]|x] eqn:E; cbn [bind].
    + rewrite IH. split.
      * intros H e' o' [[= <- <-]|Hin]; auto.
      * intros H e' o' Hin. apply H. now right.
    + split; [discriminate|]. intros H.
      specialize (H e o (or_introl eq_refl)). congruence.
    + split; [discriminate|]. intros H.
      specialize (H e o (or_introl eq_refl)). congruence.
Qed.

Lemma match_output_pairs_total (pairs : list (json * json)) :
  (forall e o, In (e, o) pairs ->
               wf_output e = true /\ wf_output o = true) ->
  exists b, match_output_pairs pairs = Ok b.
Proof.
  induction pairs as [|[e o] rest IH]; intros H; simpl; [eauto|].
  destruct (H e o (or_introl eq_refl)) as [He Ho].
  destruct (match_output_pair_total e o He Ho) as [b ->]. cbn [bind].
  destruct b; [|eauto]. apply IH. intros e' o' Hin. apply H. now right.
Qed.

Lemma combine_nth_error {A B : Type} (l : list A) (r : list B) i a b :
  nth_error l i = Some a -> nth_error r i = Some b -> In (a, b) (combine l r).
Proof.
  revert r i. induction l as [|x xs IH]; intros [|y ys] [|i]; simpl;
    try discriminate.
  - intros [= ->] [= ->]. now left.
  - intros Ha Hb. right. eauto.
Qed.

Lemma in_combine_same {A : Type} (l : list A) a b :
  In (a, b) (combine l l) -> a = b /\ In a l.
Proof.
  induction l as [|x xs IH]; simpl; [tauto|].
  intros [[= <- <-]|H]; [auto|]. destruct (IH H). auto.
Qed.

Lemma test_match_fails_at (self : CodeCell) (exec_outputs : list json) i e o :
  nth_error exec_outputs i = Some e ->
  nth_error (original_outputs self) i = Some o ->
  match_output_pair e o <> Ok true ->
  test_match self exec_outputs <> Ok true
  /\ (forallb wf_output exec_outputs = true ->
      forallb wf_output (original_outputs self) = true ->
      test_match self exec_outputs = Ok false).
Proof.
  intros He Ho Hpair. unfold test_match.
  destruct (Nat.eqb (length exec_outputs) (length (original_outputs self)));
    cbn [negb]; [|split; [discriminate | reflexivity]].
  assert (match_output_pairs (combine exec_outputs (original_outputs self))
          <> Ok true) as Hne.
  { intros Htrue. apply Hpair.
    apply (proj1 (match_output_pairs_true _) Htrue).
    eapply combine_nth_error; eauto. }
  split; [assumption|]. intros Hwe Hwo.
  rewrite forallb_forall in Hwe, Hwo.
  destruct (match_output_pairs_total
              (combine exec_outputs (original_outputs self))) as [[|] Hb].
  - intros e' o' Hin. split.
    + apply Hwe. eapply in_combine_l; eauto.
    + apply Hwo. eapply in_combine_r; eauto.
  - congruence.
  - assumption.
Qed.

Lemma data_keys_ok_true ed em od om ks :
  data_keys_ok ed em od om ks = Ok true ->
  forall k, In k ks -> data_key_ok ed em od om k = Ok true.
Proof.
  induction ks as [|k ks IH]; simpl; [intros _ k []|].
  destruct (data_key_ok ed em od om k) as [[|]|x] eqn:E; cbn [bind];
    try discriminate.
  intros H k' [<-|Hin]; auto.
Qed.

(** * Claims *)

(** C8 (as amended).  [test_match] is reflexive on well-formed outputs
    that hold no [NaN]: a cell whose recorded outputs are such matches
    those same outputs. *)
Theorem test_match_reflexive (self : CodeCell) :
  forallb wf_output (original_outputs self) = true ->
  forallb nan_free (original_outputs self) = true ->
  test_match self (original_outputs self) = Ok true.
Proof.
  intros Hwf Hnan. unfold test_match. rewrite Nat.eqb_refl. cbn [negb].
  apply match_output_pairs_true. intros e o Hin.
  apply in_combine_same in Hin as [<- Hin].
  rewrite forallb_forall in Hwf, Hnan.
  apply match_output_pair_refl; auto.
Qed.

Lemma test_match_reflexive_witness :
  test_match (code_cell "" sample_outputs) sample_outputs = Ok true.
Proof.
  exact (test_match_reflexive (code_cell "" sample_outputs) eq_refl eq_refl).
Defined.

(** C8 as the specification states it fails: a well-formed
    [execute_result] whose [application/json] value is [NaN] does not
    match itself, since [NaN != NaN]. *)
Lemma test_match_reflexive_counterexample :
  forallb wf_output [nan_record (JNum 1)] = true
  /\ test_match (code_cell "" [nan_record (JNum 1)]) [nan_record (JNum 1)]
     = Ok false.
Proof. split; reflexivity. Qed.

(** C5. [test_match] is strictly positional.  Sequences of unequal
    length never match.  For sequences of equal length, a position at
    which the two [output_type] values differ rules out a match: the
    result is never [True], and it is [False] as soon as the records
    are well-formed. *)
Theorem test_match_positional (self : CodeCell) (exec_outputs : list json) :
  (length exec_outputs <> length (original_outputs self) ->
   test_match self exec_outputs = Ok false)
  /\ (forall i e o et ot,
        length exec_outputs = length (original_outputs self) ->
        nth_error exec_outputs i = Some e ->
        nth_error (original_outputs self) i = Some o ->
        getitem e "output_type" = Ok et ->
        getitem o "output_type" = Ok ot ->
        py_ne et ot = true ->
        test_match self exec_outputs <> Ok true
        /\ (forallb wf_output exec_outputs = true ->
            forallb wf_output (original_outputs self) = true ->
            test_match self exec_outputs = Ok false)).
Proof.
  split.
  - intros Hlen. unfold test_match.
    apply Nat.eqb_neq in Hlen. now rewrite Hlen.
  - intros i e o et ot _ He Ho Het Hot Hne.
    apply (test_match_fails_at self exec_outputs i e o He Ho).
    unfold match_output_pair. rewrite Het, Hot. cbn [bind].
    rewrite Hne. discriminate.
Qed.

Lemma test_match_positional_witness :
  test_match (code_cell "" sample_outputs) [zero_division] = Ok false
  /\ test_match
       (code_cell ""
          [stream_record (JStr "stdout") (JStr "a"); zero_division])
       [zero_division; stream_record (JStr "stdout") (JStr "a")]
     = Ok false.
Proof.
  split.
  - apply (proj1 (test_match_positional (code_cell "" sample_outputs)
                    [zero_division])).
    simpl. lia.
  - refine (proj2 (proj2 (test_match_positional
      (code_cell ""
         [stream_record (JStr "stdout") (JStr "a"); zero_division])
      [zero_division; stream_record (JStr "stdout") (JStr "a")])
      0 zero_division (stream_record (JStr "stdout") (JStr "a"))
      (JStr "error") (JStr "stream")
      eq_refl eq_refl eq_refl eq_refl eq_refl eq_refl) eq_refl eq_refl).
Defined.

(** * The fields a comparison reads *)

Lemma getitem_congr d d' f :
  dict_get f d = dict_get f d' -> getitem (JDict d') f = getitem (JDict d) f.
Proof. intros H. simpl. now rewrite H. Qed.

Ltac same_field H f :=
  rewrite (getitem_congr _ _ f (H f ltac:(simpl; tauto))).

Lemma match_output_pair_congr_original e d d' :
  same_fields kind_fields d d' ->
  _test_match_execute_result e (JDict d')
  = _test_match_execute_result e (JDict d) ->
  match_output_pair e (JDict d') = match_output_pair e (JDict d).
Proof.
  intros H Hres. unfold match_output_pair. same_field H "output_type".
  destruct (getitem e "output_type") as [et|]; [|reflexivity]. cbn [bind].
  destruct (getitem (JDict d) "output_type") as [ot|]; [|reflexivity].
  cbn [bind]. destruct (py_ne et ot); [reflexivity|].
  destruct et; try reflexivity. cbn [match_by_kind].
  unfold _test_match_stream, _test_match_error. cbn [all_fields_equal].
  same_field H "name". same_field H "text". same_field H "ename".
  same_field H "evalue". same_field H "traceback". now rewrite Hres.
Qed.

Lemma match_output_pair_congr_exec o d d' :
  same_fields kind_fields d d' ->
  _test_match_execute_result (JDict d') o
  = _test_match_execute_result (JDict d) o ->
  match_output_pair (JDict d') o = match_output_pair (JDict d) o.
Proof.
  intros H Hres. unfold match_output_pair. same_field H "output_type".
  destruct (getitem (JDict d) "output_type") as [et|]; [|reflexivity].
  cbn [bind]. destruct (getitem o "output_type") as [ot|]; [|reflexivity].
  cbn [bind]. destruct (py_ne et ot); [reflexivity|].
  destruct et; try reflexivity. cbn [match_by_kind].
  unfold _test_match_stream, _test_match_error. cbn [all_fields_equal].
  same_field H "name". same_field H "text". same_field H "ename".
  same_field H "evalue". same_field H "traceback". now rewrite Hres.
Qed.

Lemma same_fields_incl fs fs' d d' :
  incl fs fs' -> same_fields fs' d d' -> same_fields fs d d'.
Proof. intros Hi H f Hf. apply H, Hi, Hf. Qed.

Lemma kind_fields_read : incl kind_fields fields_read.
Proof. intros f. simpl. tauto. Qed.

(** A comparison depends on a record through [fields_read] only. *)
Lemma match_output_pair_reads d d' :
  same_fields fields_read d d' ->
  (forall e, match_output_pair e (JDict d') = match_output_pair e (JDict d))
  /\ (forall o, match_output_pair (JDict d') o = match_output_pair (JDict d) o).
Proof.
  intros H. pose proof (same_fields_incl _ _ _ _ kind_fields_read H) as Hk.
  split; intros r.
  - apply match_output_pair_congr_original; [assumption|].
    unfold _test_match_execute_result.
    same_field H "data". same_field H "metadata". reflexivity.
  - apply match_output_pair_congr_exec; [assumption|].
    unfold _test_match_execute_result.
    same_field H "data". same_field H "metadata". reflexivity.
Qed.

(** * Keys without a [case] *)

Lemma recognized_false key :
  recognized key = false ->
  key <> "text/plain" /\ key <> "application/json" /\ key <> "image/png".
Proof.
  unfold recognized. rewrite !orb_false_iff, !String.eqb_neq. tauto.
Qed.

Lemma data_key_ok_skips key dd dd' :
  recognized key = false ->
  (forall k, k <> key -> dict_get k dd = dict_get k dd') ->
  forall k0 a em b om,
    data_key_ok a em (JDict dd') om k0 = data_key_ok a em (JDict dd) om k0
    /\ data_key_ok (JDict dd') em b om k0 = data_key_ok (JDict dd) em b om k0.
Proof.
  intros Hr Hsame k0 a em b om.
  apply recognized_false in Hr as (H1 & H2 & H3).
  unfold data_key_ok.
  destruct (String.eqb k0 "text/plain") eqn:E1.
  { apply String.eqb_eq in E1. subst k0.
    rewrite (getitem_congr dd dd' _ (Hsame _ (not_eq_sym H1))). auto. }
  destruct (String.eqb k0 "application/json") eqn:E2.
  { apply String.eqb_eq in E2. subst k0.
    rewrite (getitem_congr dd dd' _ (Hsame _ (not_eq_sym H2))). auto. }
  destruct (String.eqb k0 "image/png") eqn:E3; [|auto].
  apply String.eqb_eq in E3. subst k0.
  rewrite (getitem_congr dd dd' _ (Hsame _ (not_eq_sym H3))). auto.
Qed.

Lemma data_keys_ok_skips key dd dd' :
  recognized key = false ->
  (forall k, k <> key -> dict_get k dd = dict_get k dd') ->
  forall ks a em b om,
    data_keys_ok a em (JDict dd') om ks = data_keys_ok a em (JDict dd) om ks
    /\ data_keys_ok (JDict dd') em b om ks
       = data_keys_ok (JDict dd) em b om ks.
Proof.
  intros Hr Hsame ks a em b om.
  induction ks as [|k0 ks [IH1 IH2]]; [split; reflexivity|].
  cbn [data_keys_ok].
  destruct (data_key_ok_skips key dd dd' Hr Hsame k0 a em b om) as [-> ->].
  now rewrite IH1, IH2.
Qed.

Lemma differ_only_under_data_key_congr key r r' :
  recognized key = false ->
  differ_only_under_data_key key r r' ->
  (forall e, match_output_pair e r' = match_output_pair e r)
  /\ (forall o, match_output_pair r' o = match_output_pair r o).
Proof.
  intros Hr (d & d' & dd & dd' & -> & -> & Hf & Hd & Hd' & Hkeys & Hsame).
  assert (same_fields kind_fields d d') as Hk.
  { intros f Hin. apply Hf. simpl in Hin.
    intuition (subst; discriminate). }
  assert (dict_get "metadata" d = dict_get "metadata" d') as Hm
    by (apply Hf; discriminate).
  split; intros x.
  - apply match_output_pair_congr_original; [assumption|].
    unfold _test_match_execute_result.
    rewrite (getitem_congr _ _ _ Hm),
      (getitem_dict _ _ _ Hd), (getitem_dict _ _ _ Hd').
    destruct (getitem x "data") as [a|]; [|reflexivity].
    destruct (getitem x "metadata") as [em|]; [|reflexivity].
    destruct (getitem (JDict d) "metadata") as [om|]; [|reflexivity].
    cbn [bind keys]. rewrite <- Hkeys.
    destruct (keys a) as [eks|]; [|reflexivity]. cbn [bind].
    destruct (keys_eq eks (dict_keys dd)); [|reflexivity]. cbn [negb].
    apply (data_keys_ok_skips key dd dd' Hr Hsame eks a em a om).
  - apply match_output_pair_congr_exec; [assumption|].
    unfold _test_match_execute_result.
    rewrite (getitem_congr _ _ _ Hm),
      (getitem_dict _ _ _ Hd), (getitem_dict _ _ _ Hd').
    destruct (getitem (JDict d) "metadata") as [em|]; [|reflexivity].
    destruct (getitem x "data") as [b|]; [|reflexivity].
    destruct (getitem x "metadata") as [om|]; [|reflexivity].
    cbn [bind keys]. rewrite <- Hkeys.
    destruct (keys b) as [oks|]; [|reflexivity]. cbn [bind].
    destruct (keys_eq (dict_keys dd) oks); [|reflexivity]. cbn [negb].
    apply (data_keys_ok_skips key dd dd' Hr Hsame (dict_keys dd) b em b om).
Qed.

(** C1 (as amended).  A key of the data mapping that is none of
    [text/plain], [application/json], [image/png] has no [case]: the value
    under it is never compared.  Changing that value in either record
    leaves every comparison unchanged: the record that differs matches
    like the record itself, and so it matches when the record is
    well-formed and holds no [NaN]. *)
Theorem unrecognized_data_key_not_compared
  (key : string) (r r' : json) (self : CodeCell) :
  recognized key = false ->
  differ_only_under_data_key key r r' ->
  wf_output r = true ->
  original_outputs self = [r] ->
  (nan_free r = true ->
   test_match self [r'] = Ok true /\ match_output_pair r r' = Ok true)
  /\ test_match self [r'] = test_match self [r]
  /\ (forall e, match_output_pair e r' = match_output_pair e r)
  /\ (forall o, match_output_pair r' o = match_output_pair r o).
Proof.
  intros Hkey Hdiff Hwf Hself.
  destruct (differ_only_under_data_key_congr key r r' Hkey Hdiff)
    as [Horig Hexec].
  assert (test_match self [r'] = test_match self [r]) as Hsame.
  { unfold test_match. rewrite Hself.
    cbn [length Nat.eqb negb combine match_output_pairs].
    now rewrite Hexec. }
  split; [|split; [exact Hsame | split; assumption]].
  intros Hnan.
  pose proof (match_output_pair_refl r Hwf Hnan) as Hrefl. split.
  - rewrite Hsame. unfold test_match. rewrite Hself.
    cbn [length Nat.eqb negb combine match_output_pairs].
    now rewrite Hrefl.
  - now rewrite Horig.
Qed.

(** C1 as the specification states it fails: two [display_data]
    records that differ only in their [text/html] value match, although
    the two values are not equal. *)
Lemma unrecognized_data_key_counterexample :
  py_eq (JStr "<b>1</b>") (JStr "<i>2</i>") = false
  /\ test_match
       (code_cell "" [display_data_record [("text/html", JStr "<i>2</i>")] []])
       [display_data_record [("text/html", JStr "<b>1</b>")] []]
     = Ok true.
Proof. split; reflexivity. Qed.

Lemma unrecognized_data_key_witness :
  test_match
    (code_cell "" [display_data_record [("text/html", JStr "<i>2</i>")] []])
    [display_data_record [("text/html", JStr "<b>1</b>")] []]
  = Ok true.
Proof.
  refine (proj1 (proj1 (unrecognized_data_key_not_compared "text/html"
    (display_data_record [("text/html", JStr "<i>2</i>")] [])
    (display_data_record [("text/html", JStr "<b>1</b>")] [])
    _ _ _ _ _) eq_refl)).
  - reflexivity.
  - exists [("output_type", JStr "display_data");
            ("data", JDict [("text/html", JStr "<i>2</i>")]);
            ("metadata", JDict [])],
           [("output_type", JStr "display_data");
            ("data", JDict [("text/html", JStr "<b>1</b>")]);
            ("metadata", JDict [])],
           [("text/html", JStr "<i>2</i>")],
           [("text/html", JStr "<b>1</b>")].
    repeat split.
    + intros f Hf. simpl.
      destruct (String.eqb f "output_type"); [reflexivity|].
      destruct (String.eqb f "data") eqn:E; [|reflexivity].
      apply String.eqb_eq in E. contradiction.
    + intros k Hk. simpl.
      destruct (String.eqb k "text/html") eqn:E; [|reflexivity].
      apply String.eqb_eq in E. contradiction.
  - reflexivity.
  - reflexivity.
Defined.

(** C2 (as amended).  Two error records compare equal iff [ename],
    [evalue] and [traceback] are each equal under [==]; the values are
    compared as they are, a traceback that is a list of fragments is not
    joined, so a string never equals a list of fragments. *)
Theorem test_match_error_compares_fields_as_is
  (e o n n' v v' t t' : json) :
  getitem e "ename" = Ok n -> getitem o "ename" = Ok n' ->
  getitem e "evalue" = Ok v -> getitem o "evalue" = Ok v' ->
  getitem e "traceback" = Ok t -> getitem o "traceback" = Ok t' ->
  _test_match_error e o = Ok (py_eq n n' && py_eq v v' && py_eq t t')
  /\ (forall s l,
        (t = JStr s /\ t' = JList l) \/ (t = JList l /\ t' = JStr s) ->
        _test_match_error e o = Ok false).
Proof.
  intros Hn Hn' Hv Hv' Ht Ht'.
  assert (_test_match_error e o
          = Ok (py_eq n n' && py_eq v v' && py_eq t t')) as Heq.
  { unfold _test_match_error.
    cbn [all_fields_equal]. rewrite Hn, Hn', Hv, Hv', Ht, Ht'. cbn [bind].
    destruct (py_eq n n'); [|reflexivity].
    destruct (py_eq v v'); [|reflexivity].
    destruct (py_eq t t'); reflexivity. }
  split; [assumption|].
  intros s l [[-> ->]|[-> ->]]; rewrite Heq; cbn [py_eq];
    now rewrite andb_false_r.
Qed.

Lemma test_match_error_witness :
  _test_match_error
    (error_record (JStr "ValueError") (JStr "bad") (JList [JStr "a"; JStr "b"]))
    (error_record (JStr "ValueError") (JStr "bad") (JList [JStr "a"; JStr "b"]))
  = Ok true.
Proof.
  exact (proj1 (test_match_error_compares_fields_as_is
           (error_record (JStr "ValueError") (JStr "bad")
              (JList [JStr "a"; JStr "b"]))
           (error_record (JStr "ValueError") (JStr "bad")
              (JList [JStr "a"; JStr "b"]))
           (JStr "ValueError") (JStr "ValueError") (JStr "bad") (JStr "bad")
           (JList [JStr "a"; JStr "b"]) (JList [JStr "a"; JStr "b"])
           eq_refl eq_refl eq_refl eq_refl eq_refl eq_refl)).
Defined.

(** C2 as the specification states it fails: a traceback held as the
    string [ab] and the same traceback held as the fragments [a], [b]
    are equal as multi-line texts, yet the two error records do not
    match. *)
Lemma test_match_error_counterexample :
  _compare_multiline_text (JList [JStr "a"; JStr "b"]) (JStr "ab") = Ok true
  /\ test_match
       (code_cell ""
          [error_record (JStr "ValueError") (JStr "bad") (JStr "ab")])
       [error_record (JStr "ValueError") (JStr "bad")
          (JList [JStr "a"; JStr "b"])]
     = Ok false.
Proof. split; reflexivity. Qed.

(** * Image payloads and their metadata *)

Lemma image_png_pair_fails d d' k k' dd dd' m m' p p' :
  dict_get "output_type" d = Some (JStr k) ->
  dict_get "output_type" d' = Some (JStr k') ->
  String.eqb k "display_data" || String.eqb k "execute_result" = true ->
  dict_get "data" d = Some (JDict dd) ->
  dict_get "data" d' = Some (JDict dd') ->
  dict_get "metadata" d = Some m ->
  dict_get "metadata" d' = Some m' ->
  dict_get "image/png" dd = Some p ->
  dict_get "image/png" dd' = Some p' ->
  py_ne p p' = true
  \/ (exists g g', get m "image/png" = Ok g /\ get m' "image/png" = Ok g'
                   /\ py_ne g g' = true) ->
  match_output_pair (JDict d) (JDict d') <> Ok true.
Proof.
  intros Hk Hk' Hkind Hd Hd' Hm Hm' Hp Hp' Hdiff.
  unfold match_output_pair.
  rewrite (getitem_dict _ _ _ Hk), (getitem_dict _ _ _ Hk'). cbn [bind].
  unfold py_ne at 1. cbn [py_eq].
  destruct (String.eqb k k') eqn:E; cbn [negb]; [|discriminate].
  assert (match_by_kind (JStr k) (JDict d) (JDict d')
          = _test_match_execute_result (JDict d) (JDict d')) as ->.
  { cbn [match_by_kind]. apply orb_true_iff in Hkind as [H|H];
      apply String.eqb_eq in H; subst k; reflexivity. }
  unfold _test_match_execute_result.
  rewrite (getitem_dict _ _ _ Hd), (getitem_dict _ _ _ Hd'),
    (getitem_dict _ _ _ Hm), (getitem_dict _ _ _ Hm'). cbn [bind keys].
  destruct (keys_eq (dict_keys dd) (dict_keys dd')); cbn [negb];
    [|discriminate].
  intros Hall.
  assert (In "image/png" (dict_keys dd)) as Hin
    by (apply dict_get_keys; eauto).
  pose proof (data_keys_ok_true _ _ _ _ _ Hall _ Hin) as Hkey.
  unfold data_key_ok in Hkey. cbn [String.eqb Ascii.eqb Bool.eqb] in Hkey.
  rewrite (getitem_dict _ _ _ Hp), (getitem_dict _ _ _ Hp') in Hkey.
  cbn [bind] in Hkey.
  destruct (py_ne p p'); [discriminate|].
  destruct Hdiff as [Hpay|(g & g' & Hg & Hg' & Hmeta)]; [discriminate|].
  rewrite Hg, Hg' in Hkey. cbn [bind] in Hkey. rewrite Hmeta in Hkey.
  discriminate.
Qed.

(** C6.  When the records at some position are both of kind
    [display_data] or [execute_result] and both data mappings hold an
    [image/png] entry, a difference of the two payloads, or of the two
    [metadata.get("image/png")] values even with equal payloads, rules
    out a match: the result is never [True], and it is [False] as soon as
    the records are well-formed. *)
Theorem image_png_payload_and_metadata_compared
  (self : CodeCell) (exec_outputs : list json) (i : nat)
  (d d' dd dd' : list (string * json)) (k k' : string) (m m' p p' : json) :
  nth_error exec_outputs i = Some (JDict d) ->
  nth_error (original_outputs self) i = Some (JDict d') ->
  dict_get "output_type" d = Some (JStr k) ->
  dict_get "output_type" d' = Some (JStr k') ->
  String.eqb k "display_data" || String.eqb k "execute_result" = true ->
  dict_get "data" d = Some (JDict dd) ->
  dict_get "data" d' = Some (JDict dd') ->
  dict_get "metadata" d = Some m ->
  dict_get "metadata" d' = Some m' ->
  dict_get "image/png" dd = Some p ->
  dict_get "image/png" dd' = Some p' ->
  py_ne p p' = true
  \/ (exists g g', get m "image/png" = Ok g /\ get m' "image/png" = Ok g'
                   /\ py_ne g g' = true) ->
  test_match self exec_outputs <> Ok true
  /\ (forallb wf_output exec_outputs = true ->
      forallb wf_output (original_outputs self) = true ->
      test_match self exec_outputs = Ok false).
Proof.
  intros He Ho Hk Hk' Hkind Hd Hd' Hm Hm' Hp Hp' Hdiff.
  apply (test_match_fails_at self exec_outputs i _ _ He Ho).
  eapply image_png_pair_fails; eauto.
Qed.

(** Scenario C of the specification: equal payloads, the recorded width
    differs. *)
Lemma image_png_witness :
  test_match
    (code_cell ""
       [execute_result_record (JNum 1)
          [("image/png", JStr "AAA"); ("text/plain", JStr "x")]
          [("image/png", JDict [("width", JNum 20)])]])
    [execute_result_record (JNum 1)
       [("image/png", JStr "AAA"); ("text/plain", JStr "x")]
       [("image/png", JDict [("width", JNum 10)])]]
  = Ok false.
Proof.
  refine (proj2 (image_png_payload_and_metadata_compared
    (code_cell ""
       [execute_result_record (JNum 1)
          [("image/png", JStr "AAA"); ("text/plain", JStr "x")]
          [("image/png", JDict [("width", JNum 20)])]])
    [execute_result_record (JNum 1)
       [("image/png", JStr "AAA"); ("text/plain", JStr "x")]
       [("image/png", JDict [("width", JNum 10)])]]
    0 _ _ _ _ "execute_result" "execute_result" _ _ (JStr "AAA") (JStr "AAA")
    eq_refl eq_refl eq_refl eq_refl eq_refl eq_refl eq_refl eq_refl eq_refl
    eq_refl eq_refl _) eq_refl eq_refl).
  right. exists (JDict [("width", JNum 10)]), (JDict [("width", JNum 20)]).
  repeat split; reflexivity.
Defined.

(** * Multi-line text *)

Lemma str_items_fragments (fs : list string) :
  str_items (map JStr fs) = Ok fs.
Proof.
  induction fs as [|f fs IH]; [reflexivity|].
  cbn [map str_items]. now rewrite IH.
Qed.

Lemma join_if_list_represents t s :
  represents t s -> join_if_list t = Ok (JStr s).
Proof.
  intros [s'|fs]; [reflexivity|].
  unfold join_if_list, join. now rewrite str_items_fragments.
Qed.

(** C7.  A multi-line text compares the same whether it is held as one
    string or as any sequence of fragments that concatenate to it: the
    two forms are interchangeable on either side of
    [_compare_multiline_text] and equal to each other, hence two stream
    records with equal names, and two [text/plain] entries, match
    whenever their texts represent the same string. *)
Theorem multiline_text_split_invariant (s : string) (t t' : json) :
  represents t s -> represents t' s ->
  (forall u, _compare_multiline_text t u = _compare_multiline_text t' u)
  /\ (forall u, _compare_multiline_text u t = _compare_multiline_text u t')
  /\ _compare_multiline_text t t' = Ok true
  /\ (forall e o n n',
        getitem e "name" = Ok n -> getitem o "name" = Ok n' ->
        py_eq n n' = true ->
        getitem e "text" = Ok t -> getitem o "text" = Ok t' ->
        _test_match_stream e o = Ok true)
  /\ (forall ed em od om,
        getitem ed "text/plain" = Ok t -> getitem od "text/plain" = Ok t' ->
        data_key_ok ed em od om "text/plain" = Ok true).
Proof.
  intros Ht Ht'.
  apply join_if_list_represents in Ht, Ht'.
  assert (_compare_multiline_text t t' = Ok true) as Heq.
  { unfold _compare_multiline_text. rewrite Ht, Ht'. cbn [bind py_eq].
    now rewrite String.eqb_refl. }
  repeat split.
  - intros u. unfold _compare_multiline_text. now rewrite Ht, Ht'.
  - intros u. unfold _compare_multiline_text. now rewrite Ht, Ht'.
  - assumption.
  - intros e o n n' Hn Hn' Hnn He Ho. unfold _test_match_stream, py_ne.
    rewrite Hn, Hn', He, Ho. cbn [bind]. now rewrite Hnn.
  - intros ed em od om He Ho. unfold data_key_ok.
    cbn [String.eqb Ascii.eqb Bool.eqb]. now rewrite He, Ho.
Qed.

(** Scenario A of the specification. *)
Lemma multiline_text_witness :
  _test_match_stream
    (stream_record (JStr "stdout") (JStr ("hello" ++ newline)))
    (stream_record (JStr "stdout") (JList [JStr ("hello" ++ newline)]))
  = Ok true.
Proof.
  refine (proj1 (proj2 (proj2 (proj2 (multiline_text_split_invariant
    ("hello" ++ newline) (JStr ("hello" ++ newline))
    (JList [JStr ("hello" ++ newline)])
    (represents_string _) (represents_fragments [_])))))
    (stream_record (JStr "stdout") (JStr ("hello" ++ newline)))
    (stream_record (JStr "stdout") (JList [JStr ("hello" ++ newline)]))
    (JStr "stdout") (JStr "stdout") eq_refl eq_refl eq_refl eq_refl eq_refl).
Defined.

(** * The [execution_count] field *)

Lemma execution_count_not_read : ~ In "execution_count" fields_read.
Proof. simpl. intuition discriminate. Qed.

Lemma differ_only_in_execution_count_reads (r r' : json) :
  differ_only_in_execution_count r r' ->
  (forall e, match_output_pair e r' = match_output_pair e r)
  /\ (forall o, match_output_pair r' o = match_output_pair r o).
Proof.
  intros (d & d' & -> & -> & Hsame).
  apply match_output_pair_reads.
  intros f Hin. apply Hsame. intros ->.
  now apply execution_count_not_read.
Qed.

Lemma differ_only_in_execution_count_pair (r r' : json) :
  differ_only_in_execution_count r r' ->
  (wf_output r = true /\ nan_free r = true)
  \/ (wf_output r' = true /\ nan_free r' = true) ->
  match_output_pair r' r = Ok true.
Proof.
  intros Hdiff Hwf.
  destruct (differ_only_in_execution_count_reads r r' Hdiff) as [Horig Hexec].
  destruct Hwf as [[Hwf Hnan]|[Hwf Hnan]].
  - rewrite Hexec. now apply match_output_pair_refl.
  - rewrite <- Horig. now apply match_output_pair_refl.
Qed.

Lemma Forall2_combine {A B : Type} (R : A -> B -> Prop) l r :
  Forall2 R l r -> forall a b, In (b, a) (combine r l) -> R a b.
Proof.
  induction 1 as [|x y l r Hxy _ IH]; simpl; [tauto|].
  intros a b [[= <- <-]|Hin]; auto.
Qed.

Lemma match_output_pairs_execution_count (l r : list json) :
  Forall2 differ_only_in_execution_count l r ->
  match_output_pairs (combine r l) = match_output_pairs (combine l l).
Proof.
  induction 1 as [|x y l r Hxy _ IH]; [reflexivity|].
  cbn [combine match_output_pairs].
  rewrite (proj2 (differ_only_in_execution_count_reads x y Hxy) x), IH.
  reflexivity.
Qed.

(** C10 (as amended).  [test_match] never reads [execution_count]:
    fresh outputs that are the recorded ones but for the value (or the
    presence) of that field in some records compare like the recorded
    outputs themselves, and so they match when the records are
    well-formed and hold no [NaN]. *)
Theorem test_match_ignores_execution_count
  (self : CodeCell) (exec_outputs : list json) :
  Forall2 differ_only_in_execution_count
    (original_outputs self) exec_outputs ->
  test_match self exec_outputs = test_match self (original_outputs self)
  /\ (Forall (fun r => wf_output r = true /\ nan_free r = true)
        (original_outputs self)
      \/ Forall (fun r => wf_output r = true /\ nan_free r = true)
           exec_outputs ->
      test_match self exec_outputs = Ok true).
Proof.
  intros Hdiff. split.
  - unfold test_match.
    rewrite <- (Forall2_length Hdiff), Nat.eqb_refl. cbn [negb].
    now apply match_output_pairs_execution_count.
  - intros Hwf. unfold test_match.
    rewrite <- (Forall2_length Hdiff), Nat.eqb_refl. cbn [negb].
    apply match_output_pairs_true. intros e o Hin.
    apply differ_only_in_execution_count_pair.
    + exact (Forall2_combine _ _ _ Hdiff o e Hin).
    + destruct Hwf as [Hwf|Hwf]; rewrite Forall_forall in Hwf.
      * left. apply Hwf. eapply in_combine_r; eauto.
      * right. apply Hwf. eapply in_combine_l; eauto.
Qed.

Lemma execution_count_witness :
  test_match
    (code_cell "6 * 7"
       [execute_result_record (JNum 42) [("text/plain", JStr "42")] []])
    [execute_result_record (JNum 1) [("text/plain", JStr "42")] []]
  = Ok true.
Proof.
  refine (proj2 (test_match_ignores_execution_count
    (code_cell "6 * 7"
       [execute_result_record (JNum 42) [("text/plain", JStr "42")] []])
    [execute_result_record (JNum 1) [("text/plain", JStr "42")] []] _) _).
  - constructor; [|constructor].
    exists [("output_type", JStr "execute_result");
            ("execution_count", JNum 42);
            ("data", JDict [("text/plain", JStr "42")]);
            ("metadata", JDict [])],
           [("output_type", JStr "execute_result");
            ("execution_count", JNum 1);
            ("data", JDict [("text/plain", JStr "42")]);
            ("metadata", JDict [])].
    repeat split. intros f Hf. simpl.
    destruct (String.eqb f "output_type"); [reflexivity|].
    destruct (String.eqb f "execution_count") eqn:E; [|reflexivity].
    apply String.eqb_eq in E. contradiction.
  - left. repeat constructor.
Defined.

(** C10 as the specification states it fails: two well-formed
    [execute_result] records that differ only in [execution_count] do
    not match when their [application/json] value is [NaN]. *)
Lemma execution_count_counterexample :
  differ_only_in_execution_count (nan_record (JNum 1)) (nan_record (JNum 2))
  /\ wf_output (nan_record (JNum 1)) = true
  /\ wf_output (nan_record (JNum 2)) = true
  /\ test_match (code_cell "" [nan_record (JNum 1)]) [nan_record (JNum 2)]
     = Ok false.
Proof.
  split; [|repeat split].
  exists [("output_type", JStr "execute_result");
          ("execution_count", JNum 1);
          ("data", JDict [("application/json", JFloat FNaN)]);
          ("metadata", JDict [])],
         [("output_type", JStr "execute_result");
          ("execution_count", JNum 2);
          ("data", JDict [("application/json", JFloat FNaN)]);
          ("metadata", JDict [])].
  repeat split. intros f Hf. simpl.
  destruct (String.eqb f "output_type"); [reflexivity|].
  destruct (String.eqb f "execution_count") eqn:E; [|reflexivity].
  apply String.eqb_eq in E. contradiction.
Qed.

(** * [CodeCell.test] *)

(** C4 (as amended).  The three outcomes of [CodeCell.test].  When the
    executor reports an error the recorded outputs and [match_output]
    play no part (no comparison is attempted), the result is never
    [True], and it is [False] when [verbose] is off or the verbose report
    of the last record goes through.  Without an error and without
    [match_output] the result is [True] whatever the outputs; with
    [match_output] it is the result of [test_match]. *)
Theorem code_cell_test_outcomes
  (self : CodeCell) (executor : Executor) (verbose match_output : bool)
  (exec_outputs : list json) (errored : bool) :
  executor (source self) = (exec_outputs, errored) ->
  (errored = true ->
     snd (test self executor verbose match_output) <> Ok true
     /\ (verbose = false ->
         test self executor verbose match_output = ([], Ok false))
     /\ (forall m printed,
           verbose = true -> last_item exec_outputs = Ok m ->
           report_error m = Ok printed ->
           test self executor verbose match_output = ([printed], Ok false))
     /\ (forall self' match_output',
           source self' = source self ->
           test self' executor verbose match_output'
           = test self executor verbose match_output))
  /\ (errored = false -> match_output = false ->
      test self executor verbose match_output = ([], Ok true))
  /\ (errored = false -> match_output = true ->
      test self executor verbose match_output
      = ([], test_match self exec_outputs)).
Proof.
  intros Hexec. split; [|split].
  - intros ->. split; [|split; [|split]].
    + unfold test. rewrite Hexec.
      destruct verbose; [|discriminate].
      destruct (m <- last_item exec_outputs ;; report_error m); discriminate.
    + intros ->. unfold test. now rewrite Hexec.
    + intros m printed -> Hlast Hreport. unfold test.
      rewrite Hexec, Hlast. cbn [bind]. now rewrite Hreport.
    + intros self' match_output' Hsrc. unfold test.
      rewrite Hsrc, Hexec. reflexivity.
  - intros -> ->. unfold test. now rewrite Hexec.
  - intros -> ->. unfold test. now rewrite Hexec.
Qed.

Lemma code_cell_test_witness :
  test (code_cell "1/0" []) failing_executor true true
  = ([JStr ("Traceback" ++ newline ++ "ZeroDivisionError")], Ok false)
  /\ test (code_cell "1/0" []) failing_executor false true = ([], Ok false)
  /\ test (code_cell "print(1)" [stream_record (JStr "stdout") (JStr "2")])
       printing_executor false false
     = ([], Ok true)
  /\ test (code_cell "print(1)" [stream_record (JStr "stdout") (JStr "2")])
       printing_executor false true
     = ([], Ok false).
Proof.
  split; [|split; [|split]].
  - destruct (code_cell_test_outcomes (code_cell "1/0" []) failing_executor
                true true _ _ eq_refl) as [H _].
    destruct (H eq_refl) as (_ & _ & Hreport & _).
    exact (Hreport zero_division
             (JStr ("Traceback" ++ newline ++ "ZeroDivisionError"))
             eq_refl eq_refl eq_refl).
  - destruct (code_cell_test_outcomes (code_cell "1/0" []) failing_executor
                false true _ _ eq_refl) as [H _].
    destruct (H eq_refl) as (_ & Hquiet & _).
    exact (Hquiet eq_refl).
  - destruct (code_cell_test_outcomes
                (code_cell "print(1)"
                   [stream_record (JStr "stdout") (JStr "2")])
                printing_executor false false _ _ eq_refl) as (_ & H & _).
    exact (H eq_refl eq_refl).
  - destruct (code_cell_test_outcomes
                (code_cell "print(1)"
                   [stream_record (JStr "stdout") (JStr "2")])
                printing_executor false true _ _ eq_refl) as (_ & _ & H).
    exact (H eq_refl eq_refl).
Defined.

(** C4 as the specification states it fails: under [verbose] a failed
    execution does not return [False] when the executor hands back no
    record, or a last record without a traceback; the report raises. *)
Lemma code_cell_test_counterexample :
  test (code_cell "1/0" []) (fun _ => ([], true)) true false
  = ([], Raise IndexError)
  /\ test (code_cell "1/0" [])
       (fun _ => ([stream_record (JStr "stderr") (JStr "boom")], true))
       true false
     = ([], Raise KeyError).
Proof. split; reflexivity. Qed.

(** * [Tester.test] *)

Section TesterFacts.

Context {Notebook : Type}.
Variable notebook_test : Notebook -> json -> bool -> bool -> result bool.

Lemma test_loop_returns (self : Tester Notebook) (nbs : list Notebook) :
  (forall nb, In nb nbs -> exists b, outcome notebook_test self nb = Ok b) ->
  test_loop notebook_test self nbs
  = (flat_map (fun nb => [SessionEnter;
                          NotebookTest nb (outcome notebook_test self nb);
                          SessionExit]) nbs,
     Ok tt).
Proof.
  induction nbs as [|nb nbs IH]; intros H; [reflexivity|].
  destruct (H nb (or_introl eq_refl)) as [b Hb].
  cbn [test_loop flat_map]. unfold test_notebook.
  unfold outcome in Hb |- *. rewrite Hb.
  rewrite IH by (intros nb' Hin; apply H; now right). reflexivity.
Qed.

Lemma tested_sessions (f : Notebook -> result bool) (nbs : list Notebook) :
  tested (flat_map (fun nb => [SessionEnter; NotebookTest nb (f nb);
                               SessionExit]) nbs)
  = nbs.
Proof.
  induction nbs as [|nb nbs IH]; [reflexivity|].
  cbn [flat_map app tested]. now rewrite IH.
Qed.

Lemma test_loop_ignores_threads (self self' : Tester Notebook) nbs :
  seed self' = seed self -> verbose self' = verbose self ->
  match_output self' = match_output self ->
  test_loop notebook_test self' nbs = test_loop notebook_test self nbs.
Proof.
  intros Hs Hv Hm. induction nbs as [|nb nbs IH]; [reflexivity|].
  cbn [test_loop]. unfold test_notebook, outcome.
  now rewrite Hs, Hv, Hm, IH.
Qed.

End TesterFacts.

(** C3 (as amended).  [Tester.test] calls the test of every notebook and
    drops each boolean: when no test raises it returns [None], and the
    same whatever the tests answered. *)
Theorem tester_test_drops_results
  (Notebook : Type)
  (notebook_test notebook_test' :
     Notebook -> json -> bool -> bool -> result bool)
  (self : Tester Notebook) :
  all_return notebook_test self ->
  all_return notebook_test' self ->
  snd (tester_test notebook_test self) = Ok tt
  /\ snd (tester_test notebook_test' self)
     = snd (tester_test notebook_test self)
  /\ tested (fst (tester_test notebook_test self)) = notebooks self.
Proof.
  intros H H'. unfold tester_test.
  rewrite (test_loop_returns notebook_test self _ H),
    (test_loop_returns notebook_test' self _ H').
  cbn [fst snd tested]. rewrite tested_sessions. auto.
Qed.

Lemma tester_test_drops_results_witness :
  snd (tester_test answers (tester_of 1 [true; false])) = Ok tt.
Proof.
  refine (proj1 (tester_test_drops_results bool answers answers
                   (tester_of 1 [true; false]) _ _));
    intros nb _; exists nb; reflexivity.
Defined.

(** C3 as the specification states it fails: a run over one failing
    notebook and a run over one passing notebook return the same value,
    although the conjunctions of their test results differ. *)
Lemma tester_test_status_counterexample :
  snd (tester_test answers (tester_of 1 [false]))
  = snd (tester_test answers (tester_of 1 [true]))
  /\ forallb (fun nb => nb) [false] <> forallb (fun nb => nb) [true].
Proof. split; [reflexivity | discriminate]. Qed.

(** X20.  [Tester.test] is one loop over the notebooks: when no test
    raises, the run opens a session, tests the notebook and closes the
    session for each notebook in list order, so every notebook is tested
    exactly once and fully before the next; [num_threads] has no effect
    on the run. *)
Theorem tester_test_sequential
  (Notebook : Type)
  (notebook_test : Notebook -> json -> bool -> bool -> result bool)
  (self : Tester Notebook) :
  all_return notebook_test self ->
  tester_test notebook_test self
  = (Print ("Testing" ++ newline)
       :: flat_map (fun nb => [SessionEnter;
                               NotebookTest nb (outcome notebook_test self nb);
                               SessionExit]) (notebooks self),
     Ok tt)
  /\ tested (fst (tester_test notebook_test self)) = notebooks self
  /\ (forall self' : Tester Notebook,
        notebooks self' = notebooks self -> seed self' = seed self ->
        verbose self' = verbose self ->
        match_output self' = match_output self ->
        tester_test notebook_test self' = tester_test notebook_test self).
Proof.
  intros H. unfold tester_test.
  rewrite (test_loop_returns notebook_test self _ H).
  split; [reflexivity|]. split.
  - cbn [fst tested]. apply tested_sessions.
  - intros self' Hn Hs Hv Hm.
    rewrite Hn, (test_loop_ignores_threads notebook_test self self' _ Hs Hv Hm).
    now rewrite (test_loop_returns notebook_test self _ H).
Qed.

Lemma tester_test_sequential_witness :
  tester_test answers (tester_of 4 [true; false])
  = ([Print ("Testing" ++ newline);
      SessionEnter; NotebookTest true (Ok true); SessionExit;
      SessionEnter; NotebookTest false (Ok false); SessionExit],
     Ok tt).
Proof.
  refine (proj1 (tester_test_sequential bool answers
                   (tester_of 4 [true; false]) _)).
  intros nb _. exists nb. reflexivity.
Defined.

(** C9.  The code does not use the threads that [--num-threads]
    announces: with [num_threads = 4] and four notebooks nothing is
    distributed; the run is the single pass of the run with
    [num_threads = 1], one notebook after the other. *)
Lemma tester_test_ignores_num_threads :
  tester_test answers (tester_of 4 [true; true; false; true])
  = tester_test answers (tester_of 1 [true; true; false; true])
  /\ fst (tester_test answers (tester_of 4 [true; true; false; true]))
     = [Print ("Testing" ++ newline);
        SessionEnter; NotebookTest true (Ok true); SessionExit;
        SessionEnter; NotebookTest true (Ok true); SessionExit;
        SessionEnter; NotebookTest false (Ok false); SessionExit;
        SessionEnter; NotebookTest true (Ok true); SessionExit].
Proof. split; reflexivity. Qed.

(** * Further properties of the matcher *)

Lemma in_combine_nth_error {A B : Type} (l : list A) (r : list B) a b :
  In (a, b) (combine l r) ->
  exists i, nth_error l i = Some a /\ nth_error r i = Some b.
Proof.
  revert r. induction l as [|x xs IH]; intros [|y ys]; simpl; try tauto.
  intros [[= <- <-]|Hin].
  - exists 0. auto.
  - destruct (IH ys Hin) as [i Hi]. exists (S i). exact Hi.
Qed.

(** X1.  [test_match] answers [True] exactly when the two sequences have
    the same length and the records at every position match. *)
Theorem test_match_true_iff (self : CodeCell) (exec_outputs : list json) :
  test_match self exec_outputs = Ok true
  <-> length exec_outputs = length (original_outputs self)
      /\ forall i e o,
           nth_error exec_outputs i = Some e ->
           nth_error (original_outputs self) i = Some o ->
           match_output_pair e o = Ok true.
Proof.
  unfold test_match.
  destruct (Nat.eqb (length exec_outputs) (length (original_outputs self)))
    eqn:E; cbn [negb].
  - apply Nat.eqb_eq in E. rewrite match_output_pairs_true. split.
    + intros H. split; [assumption|]. intros i e o He Ho.
      apply H. eapply combine_nth_error; eauto.
    + intros [_ H] e o Hin.
      destruct (in_combine_nth_error _ _ _ _ Hin) as (i & He & Ho). eauto.
  - apply Nat.eqb_neq in E. split; [discriminate | tauto].
Qed.

Lemma match_output_pairs_first (l r : list json) i e o :
  nth_error l i = Some e -> nth_error r i = Some o ->
  (forall j e' o', j < i -> nth_error l j = Some e' ->
                   nth_error r j = Some o' ->
                   match_output_pair e' o' = Ok true) ->
  match_output_pair e o <> Ok true ->
  match_output_pairs (combine l r) = match_output_pair e o.
Proof.
  revert r i. induction l as [|x xs IH]; intros [|y ys] [|i]; simpl;
    try discriminate.
  - intros [= ->] [= ->] _ Hne.
    destruct (match_output_pair e o) as [[|]|]; simpl; congruence.
  - intros He Ho Hbefore Hne.
    rewrite (Hbefore 0 x y (Nat.lt_0_succ i) eq_refl eq_refl). cbn [bind].
    apply (IH ys i He Ho); [|assumption].
    intros j e' o' Hj. apply (Hbefore (S j)). lia.
Qed.

(** X2.  The first position that does not match decides: when every
    earlier position matches, [test_match] returns what the comparison at
    that position returns, [False] or the exception it raises, whatever
    the records after it are; [CodeCell.test] hands the same on, it
    catches nothing. *)
Theorem test_match_first_failure
  (self : CodeCell) (exec_outputs : list json) (i : nat) (e o : json) :
  length exec_outputs = length (original_outputs self) ->
  nth_error exec_outputs i = Some e ->
  nth_error (original_outputs self) i = Some o ->
  (forall j e' o', j < i -> nth_error exec_outputs j = Some e' ->
                   nth_error (original_outputs self) j = Some o' ->
                   match_output_pair e' o' = Ok true) ->
  match_output_pair e o <> Ok true ->
  test_match self exec_outputs = match_output_pair e o
  /\ (forall executor verbose,
        executor (source self) = (exec_outputs, false) ->
        test self executor verbose true = ([], match_output_pair e o)).
Proof.
  intros Hlen He Ho Hbefore Hne.
  assert (test_match self exec_outputs = match_output_pair e o) as Heq.
  { unfold test_match. rewrite Hlen, Nat.eqb_refl. cbn [negb].
    eapply match_output_pairs_first; eauto. }
  split; [assumption|].
  intros executor verbose Hexec. unfold test. now rewrite Hexec, Heq.
Qed.

Lemma test_match_first_failure_witness :
  test
    (code_cell "print(1)"
       [stream_record (JStr "stdout") (JStr "1"); JDict []; JNull])
    (fun _ => ([stream_record (JStr "stdout") (JList [JStr "1"]);
                zero_division; JNum 7], false))
    false true
  = ([], Raise KeyError).
Proof.
  refine (proj2 (test_match_first_failure
    (code_cell "print(1)"
       [stream_record (JStr "stdout") (JStr "1"); JDict []; JNull])
    [stream_record (JStr "stdout") (JList [JStr "1"]); zero_division; JNum 7]
    1 zero_division (JDict []) eq_refl eq_refl eq_refl _ _) _ false eq_refl).
  - intros [|j] e' o' Hj; [|lia]. intros [= <-] [= <-]. reflexivity.
  - discriminate.
Defined.

(** X3.  On texts held as a string or as string fragments the
    comparison is exactly equality of the concatenations: nothing is
    trimmed or folded, so two stream records with equal names match iff
    their texts concatenate to the same string. *)
Theorem compare_multiline_text_exact (s s' : string) (t t' : json) :
  represents t s -> represents t' s' ->
  _compare_multiline_text t t' = Ok (String.eqb s s')
  /\ (forall e o n n',
        getitem e "name" = Ok n -> getitem o "name" = Ok n' ->
        py_eq n n' = true ->
        getitem e "text" = Ok t -> getitem o "text" = Ok t' ->
        _test_match_stream e o = Ok (String.eqb s s')).
Proof.
  intros Ht Ht'. apply join_if_list_represents in Ht, Ht'.
  assert (_compare_multiline_text t t' = Ok (String.eqb s s')) as Heq
    by (unfold _compare_multiline_text; now rewrite Ht, Ht').
  split; [assumption|].
  intros e o n n' Hn Hn' Hnn He Ho. unfold _test_match_stream, py_ne.
  rewrite Hn, Hn', He, Ho. cbn [bind]. now rewrite Hnn.
Qed.

Lemma compare_multiline_text_exact_witness :
  _compare_multiline_text (JList [JStr "4"; JStr ""]) (JStr "5") = Ok false.
Proof.
  exact (proj1 (compare_multiline_text_exact "4" "5"
                  (JList [JStr "4"; JStr ""]) (JStr "5")
                  (represents_fragments ["4"; ""]) (represents_string "5"))).
Defined.

(** X4.  Records whose [output_type] values are equal but name none of
    [stream], [error], [display_data], [execute_result] are not compared
    any further: the pair passes whatever else the records hold. *)
Theorem unknown_kind_not_compared (e o t t' : json) :
  getitem e "output_type" = Ok t ->
  getitem o "output_type" = Ok t' ->
  py_eq t t' = true ->
  (forall k, t = JStr k -> known_kind k = false) ->
  match_output_pair e o = Ok true.
Proof.
  intros He Ho Heq Hkind. unfold match_output_pair, py_ne.
  rewrite He, Ho. cbn [bind]. rewrite Heq. cbn [negb].
  destruct t; try reflexivity.
  specialize (Hkind s eq_refl). unfold known_kind in Hkind.
  rewrite !orb_false_iff in Hkind. destruct Hkind as [[[H1 H2] H3] H4].
  cbn [match_by_kind]. now rewrite H1, H2, H3, H4.
Qed.

Lemma unknown_kind_witness :
  match_output_pair
    (JDict [("output_type", JStr "update_display_data");
            ("data", JDict [("text/plain", JStr "1")])])
    (JDict [("output_type", JStr "update_display_data");
            ("data", JDict [("text/plain", JStr "2")])])
  = Ok true.
Proof.
  apply (unknown_kind_not_compared _ _ (JStr "update_display_data")
           (JStr "update_display_data")); try reflexivity.
  intros k [= <-]. reflexivity.
Defined.

(** * Key sets *)

Lemma distinct_NoDup (ks : list string) : distinct ks = true <-> NoDup ks.
Proof.
  induction ks as [|k ks IH]; simpl.
  - split; [constructor | reflexivity].
  - rewrite andb_true_iff, negb_true_iff, IH. split.
    + intros [Hk Hks]. constructor; [|assumption].
      intros Hin. apply existsb_eqb_In in Hin. congruence.
    + intros H. inversion H as [|? ? Hk Hks]; subst. split; [|assumption].
      destruct (existsb (String.eqb k) ks) eqn:E; [|reflexivity].
      apply existsb_eqb_In in E. contradiction.
Qed.

Lemma keys_eq_same_set (a b : list string) :
  distinct a = true -> distinct b = true ->
  (keys_eq a b = true <-> forall k, In k a <-> In k b).
Proof.
  rewrite !distinct_NoDup. intros Ha Hb. split.
  - intros H. pose proof (keys_eq_incl a b H) as Hincl.
    unfold keys_eq in H. apply andb_true_iff in H as [Hlen _].
    apply Nat.eqb_eq in Hlen. intros k. split; [apply Hincl|].
    apply (NoDup_length_incl Ha); [lia | exact Hincl].
  - intros H. unfold keys_eq. apply andb_true_iff. split.
    + apply Nat.eqb_eq. apply Nat.le_antisymm.
      * apply NoDup_incl_length; [assumption|]. intros k. apply H.
      * apply NoDup_incl_length; [assumption|]. intros k. apply H.
    + apply forallb_forall. intros k Hk. apply existsb_eqb_In. now apply H.
Qed.

(** X5.  For [display_data] and [execute_result] records the two data
    mappings must hold the same keys, in any order: a key held by one
    side only makes the pair fail before any value is looked at, be the
    key one of the compared content types or not. *)
Theorem data_key_sets_must_agree
  (d d' dd dd' : list (string * json)) (k key : string) (m m' : json) :
  dict_get "output_type" d = Some (JStr k) ->
  dict_get "output_type" d' = Some (JStr k) ->
  String.eqb k "display_data" || String.eqb k "execute_result" = true ->
  dict_get "data" d = Some (JDict dd) ->
  dict_get "data" d' = Some (JDict dd') ->
  dict_get "metadata" d = Some m ->
  dict_get "metadata" d' = Some m' ->
  distinct (dict_keys dd) = true -> distinct (dict_keys dd') = true ->
  (In key (dict_keys dd) /\ ~ In key (dict_keys dd'))
  \/ (In key (dict_keys dd') /\ ~ In key (dict_keys dd)) ->
  match_output_pair (JDict d) (JDict d') = Ok false.
Proof.
  intros Hk Hk' Hkind Hd Hd' Hm Hm' Hdd Hdd' Hkey.
  unfold match_output_pair, py_ne.
  rewrite (getitem_dict _ _ _ Hk), (getitem_dict _ _ _ Hk').
  cbn [bind py_eq]. rewrite String.eqb_refl. cbn [negb].
  assert (match_by_kind (JStr k) (JDict d) (JDict d')
          = _test_match_execute_result (JDict d) (JDict d')) as ->.
  { cbn [match_by_kind]. apply orb_true_iff in Hkind as [H|H];
      apply String.eqb_eq in H; subst k; reflexivity. }
  unfold _test_match_execute_result.
  rewrite (getitem_dict _ _ _ Hd), (getitem_dict _ _ _ Hd'),
    (getitem_dict _ _ _ Hm), (getitem_dict _ _ _ Hm'). cbn [bind keys].
  destruct (keys_eq (dict_keys dd) (dict_keys dd')) eqn:E; [|reflexivity].
  exfalso. pose proof (proj1 (keys_eq_same_set _ _ Hdd Hdd') E key) as Hiff.
  tauto.
Qed.

Lemma data_key_sets_witness :
  match_output_pair
    (display_data_record
       [("text/plain", JList [JNum 1]); ("text/html", JStr "<b>1</b>")] [])
    (display_data_record [("text/plain", JList [JNum 1])] [])
  = Ok false.
Proof.
  apply (data_key_sets_must_agree _ _
           [("text/plain", JList [JNum 1]); ("text/html", JStr "<b>1</b>")]
           [("text/plain", JList [JNum 1])]
           "display_data" "text/html" (JDict []) (JDict []));
    try reflexivity.
  left. split; [simpl; tauto|]. simpl. intuition discriminate.
Defined.

(** * Reporting an error *)

Lemma str_items_fragments_inv (l : list json) ss :
  str_items l = Ok ss -> l = map JStr ss.
Proof.
  revert ss. induction l as [|x xs IH]; intros ss.
  - intros [= <-]. reflexivity.
  - destruct x; simpl; try discriminate.
    destruct (str_items xs) as [ss'|] eqn:E; [|discriminate].
    intros [= <-]. simpl. now rewrite (IH ss' eq_refl).
Qed.

(** X6.  [report_error] goes through exactly on a dict whose
    [traceback] is a list of strings, printed joined by newlines, or is
    no list at all, printed as it is.  Anything else raises: a record
    without [traceback], a value that is no dict, a list holding a
    non-string. *)
Theorem report_error_succeeds_iff (error_msg printed : json) :
  report_error error_msg = Ok printed
  <-> exists d t,
        error_msg = JDict d /\ dict_get "traceback" d = Some t
        /\ ((exists fs, t = JList (map JStr fs)
                        /\ printed = JStr (String.concat newline fs))
            \/ ((forall l, t <> JList l) /\ printed = t)).
Proof.
  unfold report_error. split.
  - destruct error_msg as [| | | | | |d]; try discriminate.
    cbn [getitem]. destruct (dict_get "traceback" d) as [t|] eqn:Et;
      [|discriminate].
    cbn [bind]. intros H. exists d, t.
    split; [reflexivity|]. split; [assumption|].
    destruct t as [| | | | |l|];
      try (injection H as <-; right; split; [discriminate | reflexivity]).
    left. unfold join in H. destruct (str_items l) as [ss|] eqn:Es;
      [|discriminate].
    injection H as <-. exists ss.
    now rewrite (str_items_fragments_inv l ss Es).
  - intros (d & t & -> & Et & [(fs & -> & ->)|[Hnl ->]]);
      cbn [getitem]; rewrite Et; cbn [bind].
    + unfold join. now rewrite str_items_fragments.
    + destruct t; try reflexivity. now elim (Hnl items).
Qed.

(** * What [CodeCell.test] prints and raises *)

(** X7.  [CodeCell.test] prints only for a failed execution under
    [verbose]: whenever something is printed, it is the one report of
    the last output record, and the test returns [False]. *)
Theorem test_prints_only_verbose_errors
  (self : CodeCell) (executor : Executor) (verbose match_output : bool) :
  fst (test self executor verbose match_output) <> [] ->
  verbose = true
  /\ snd (executor (source self)) = true
  /\ exists m printed,
       last_item (fst (executor (source self))) = Ok m
       /\ report_error m = Ok printed
       /\ test self executor verbose match_output = ([printed], Ok false).
Proof.
  unfold test. destruct (executor (source self)) as [outs errored].
  cbn [fst snd].
  destruct errored; [|destruct match_output; intros H; now elim H].
  destruct verbose; [|intros H; now elim H].
  destruct (last_item outs) as [m|] eqn:El; cbn [bind];
    [|intros H; now elim H].
  destruct (report_error m) as [printed|] eqn:Er; [|intros H; now elim H].
  intros _. repeat split. exists m, printed. auto.
Qed.

Lemma test_prints_witness :
  test (code_cell "1/0" []) failing_executor true false
  = ([JStr ("Traceback" ++ newline ++ "ZeroDivisionError")], Ok false).
Proof.
  destruct (test_prints_only_verbose_errors (code_cell "1/0" [])
              failing_executor true false)
    as (_ & _ & m & printed & Hm & Hp & Ht).
  - discriminate.
  - rewrite Ht. injection Hm as <-. injection Hp as <-. reflexivity.
Defined.

(** X8.  After a failed execution [verbose] cannot turn the verdict
    into a pass, but it can make the call raise: without [verbose] the
    test returns [False]; with it, the test raises [IndexError] when the
    executor returned no record, raises what [report_error] raises on the
    last record, and returns [False] otherwise. *)
Theorem test_verbose_report_may_raise
  (self : CodeCell) (executor : Executor) (match_output : bool)
  (exec_outputs : list json) :
  executor (source self) = (exec_outputs, true) ->
  test self executor false match_output = ([], Ok false)
  /\ (exec_outputs = [] ->
      test self executor true match_output = ([], Raise IndexError))
  /\ (forall front m e,
        exec_outputs = front ++ [m] -> report_error m = Raise e ->
        test self executor true match_output = ([], Raise e))
  /\ (forall front m printed,
        exec_outputs = front ++ [m] -> report_error m = Ok printed ->
        test self executor true match_output = ([printed], Ok false)).
Proof.
  intros Hexec. unfold test. rewrite Hexec.
  assert (forall front m, last_item (front ++ [m]) = Ok m) as Hlast
    by (intros front m; unfold last_item; now rewrite rev_app_distr).
  repeat split.
  - intros ->. reflexivity.
  - intros front m e -> Hr. rewrite Hlast. cbn [bind]. now rewrite Hr.
  - intros front m printed -> Hr. rewrite Hlast. cbn [bind]. now rewrite Hr.
Qed.

Lemma test_verbose_report_witness :
  test (code_cell "1/0" []) (fun _ => ([], true)) true false
  = ([], Raise IndexError)
  /\ test (code_cell "1/0" [])
       (fun _ => ([stream_record (JStr "stderr") (JStr "boom")], true))
       true false
     = ([], Raise KeyError).
Proof.
  split.
  - exact (proj1 (proj2 (test_verbose_report_may_raise (code_cell "1/0" [])
                           (fun _ => ([], true)) false [] eq_refl)) eq_refl).
  - exact (proj1 (proj2 (proj2 (test_verbose_report_may_raise
             (code_cell "1/0" [])
             (fun _ => ([stream_record (JStr "stderr") (JStr "boom")], true))
             false [stream_record (JStr "stderr") (JStr "boom")] eq_refl)))
             [] (stream_record (JStr "stderr") (JStr "boom")) KeyError
             eq_refl eq_refl).
Defined.

(** * Building cells *)

Lemma assert_keys_dict (d : list (string * json)) (ks : list string) :
  assert_keys (JDict d) ks
  = if forallb (fun k => has_key k d) ks then Built tt
    else Failed AssertionError.
Proof.
  induction ks as [|k ks IH]; [reflexivity|].
  cbn [assert_keys contains lift and_then forallb].
  destruct (has_key k d); [exact IH | reflexivity].
Qed.

Lemma from_nb_needs_dict (nb : json) (notebook : bool) obj :
  from_nb nb notebook = Built obj -> exists d, nb = JDict d.
Proof.
  destruct nb as [|b|n|f|s|l|d]; [| | | | | |eauto]; unfold from_nb;
    intros H; exfalso; revert H.
  - discriminate.
  - destruct b, notebook; discriminate.
  - cbn [truthy]. destruct (negb (Z.eqb n 0)), notebook; discriminate.
  - cbn [truthy].
    destruct (negb (float_eqb f (float_of_Z 0))), notebook; discriminate.
  - destruct (py_assert (truthy (JStr s))); [|discriminate].
    cbn [and_then]. destruct (py_assert notebook); [|discriminate].
    cbn [and_then]. destruct (assert_keys (JStr s) _); discriminate.
  - destruct (py_assert (truthy (JList l))); [|discriminate].
    cbn [and_then]. destruct (py_assert notebook); [|discriminate].
    cbn [and_then]. destruct (assert_keys (JList l) _); discriminate.
Qed.

Lemma dict_get_nonempty {V : Type} k (d : list (string * V)) v :
  dict_get k d = Some v -> Nat.eqb (length d) 0 = false.
Proof. destruct d; [discriminate | reflexivity]. Qed.

(** X9.  [CodeCell.from_nb] builds a cell exactly from a dict that
    holds the five required keys, with a [cell_type] equal to [code] and
    a [source] that is not a list or is a list of strings, provided the
    notebook argument is truthy.  The cell keeps [outputs],
    [execution_count] and [metadata] as they are, the joined source, and
    the [id] when there is one, [None] otherwise. *)
Theorem from_nb_builds_iff (nb : json) (notebook : bool)
  (obj : CodeCellObject) :
  from_nb nb notebook = Built obj
  <-> notebook = true
      /\ exists d ct src src' outs ec meta,
           nb = JDict d
           /\ dict_get "cell_type" d = Some ct
           /\ py_eq ct (JStr "code") = true
           /\ dict_get "source" d = Some src
           /\ join_if_list src = Ok src'
           /\ dict_get "outputs" d = Some outs
           /\ dict_get "execution_count" d = Some ec
           /\ dict_get "metadata" d = Some meta
           /\ obj = {| obj_source := src'; obj_original_outputs := outs;
                       obj_exec_count := ec; obj_metadata := meta;
                       obj_cell_id := match dict_get "id" d with
                                      | Some id => id
                                      | None => JNull
                                      end |}.
Proof.
  split.
  - intros H. destruct (from_nb_needs_dict _ _ _ H) as [d ->].
    revert H. unfold from_nb. rewrite assert_keys_dict.
    cbn [forallb getitem get]. unfold has_key.
    destruct (py_assert (truthy (JDict d))); [|discriminate].
    destruct notebook; [|discriminate]. cbn [py_assert and_then].
    destruct (dict_get "cell_type" d) as [ct|] eqn:E1; [|discriminate].
    destruct (dict_get "execution_count" d) as [ec|] eqn:E2; [|discriminate].
    destruct (dict_get "metadata" d) as [meta|] eqn:E3; [|discriminate].
    destruct (dict_get "source" d) as [src|] eqn:E4; [|discriminate].
    destruct (dict_get "outputs" d) as [outs|] eqn:E5; [|discriminate].
    cbn [andb lift and_then].
    destruct (py_eq ct (JStr "code")) eqn:Ect; [|discriminate].
    cbn [py_assert and_then].
    destruct (join_if_list src) as [src'|] eqn:Es; [|discriminate].
    cbn [lift and_then]. intros H. split; [reflexivity|].
    exists d, ct, src, src', outs, ec, meta.
    repeat (split; [reflexivity || assumption|]).
    destruct (dict_get "id" d); cbn [lift and_then] in H;
      injection H as <-; reflexivity.
  - intros (-> & d & ct & src & src' & outs & ec & meta
            & -> & Hct & Hcode & Hsrc & Hjoin & Houts & Hec & Hmeta & ->).
    unfold from_nb. rewrite assert_keys_dict.
    cbn [forallb getitem get truthy]. unfold has_key.
    rewrite (dict_get_nonempty _ _ _ Hct), Hct, Hsrc, Houts, Hec, Hmeta.
    cbn [negb andb py_assert lift and_then]. rewrite Hcode.
    cbn [py_assert and_then]. rewrite Hjoin. cbn [lift and_then].
    destruct (dict_get "id" d); reflexivity.
Qed.

Lemma forallb_is_str_fragments (fs : list string) :
  forallb is_str (map JStr fs) = true.
Proof. induction fs as [|f fs IH]; [reflexivity | exact IH]. Qed.

Lemma str_items_raises (l : list json) e :
  str_items l = Raise e -> e = TypeError.
Proof.
  induction l as [|x xs IH]; [discriminate|].
  destruct x; simpl; try (intros [= <-]; reflexivity).
  destruct (str_items xs); [discriminate|]. intros [= <-]. now apply IH.
Qed.

(** X10.  On a dict, every failed check of [CodeCell.from_nb] is an
    [AssertionError], never a [KeyError]: an empty dict, a falsy
    notebook, a missing required key, a [cell_type] other than [code].
    A [source] list that holds a non-string escapes as the [TypeError]
    of [str.join]. *)
Theorem from_nb_rejects (d : list (string * json)) (notebook : bool) :
  (d = [] \/ notebook = false
   \/ (exists k, In k ["cell_type"; "execution_count"; "metadata";
                       "source"; "outputs"]
                 /\ dict_get k d = None)
   \/ (exists ct, dict_get "cell_type" d = Some ct
                  /\ py_eq ct (JStr "code") = false) ->
   from_nb (JDict d) notebook = Failed AssertionError)
  /\ (forall ct l outs ec meta,
        notebook = true ->
        dict_get "cell_type" d = Some ct -> py_eq ct (JStr "code") = true ->
        dict_get "source" d = Some (JList l) -> forallb is_str l = false ->
        dict_get "outputs" d = Some outs ->
        dict_get "execution_count" d = Some ec ->
        dict_get "metadata" d = Some meta ->
        from_nb (JDict d) notebook = Failed (Uncaught TypeError)).
Proof.
  split.
  - intros H. unfold from_nb. rewrite assert_keys_dict.
    cbn [forallb getitem get truthy]. unfold has_key.
    destruct d as [|kv d']; [reflexivity|].
    destruct H as [H|H]; [discriminate|].
    cbn [length Nat.eqb negb py_assert and_then].
    destruct notebook; [|reflexivity]. cbn [py_assert and_then].
    destruct H as [H|H]; [discriminate|].
    destruct (dict_get "cell_type" (kv :: d')) as [ct|] eqn:E1;
      [|reflexivity].
    destruct (dict_get "execution_count" (kv :: d')) as [ec|] eqn:E2;
      [|reflexivity].
    destruct (dict_get "metadata" (kv :: d')) as [meta|] eqn:E3;
      [|reflexivity].
    destruct (dict_get "source" (kv :: d')) as [src|] eqn:E4;
      [|reflexivity].
    destruct (dict_get "outputs" (kv :: d')) as [outs|] eqn:E5;
      [|reflexivity].
    cbn [andb lift and_then].
    destruct H as [(k & Hk & Hnone)|(ct' & Hct & Hcode)].
    + simpl in Hk. intuition (subst; congruence).
    + injection Hct as <-. now rewrite Hcode.
  - intros ct l outs ec meta -> Hct Hcode Hsrc Hl Houts Hec Hmeta.
    unfold from_nb. rewrite assert_keys_dict.
    cbn [forallb getitem get truthy]. unfold has_key.
    rewrite (dict_get_nonempty _ _ _ Hct), Hct, Hsrc, Houts, Hec, Hmeta.
    cbn [negb andb py_assert lift and_then]. rewrite Hcode.
    cbn [py_assert and_then join_if_list]. unfold join.
    destruct (str_items l) as [ss|e] eqn:Es.
    + apply str_items_fragments_inv in Es. subst l.
      now rewrite forallb_is_str_fragments in Hl.
    + now rewrite (str_items_raises _ _ Es).
Qed.

Lemma from_nb_builds_witness :
  from_nb (code_cell_dict (JList [JStr "x = 1"; JStr "; x"]) (JList []))
    true
  = Built {| obj_source := JStr "x = 1; x"; obj_original_outputs := JList [];
             obj_exec_count := JNum 1; obj_metadata := JDict [];
             obj_cell_id := JStr "c0ffee" |}.
Proof.
  apply from_nb_builds_iff. split; [reflexivity|].
  exists (code_cell_fields (JList [JStr "x = 1"; JStr "; x"]) (JList [])),
         (JStr "code"), (JList [JStr "x = 1"; JStr "; x"]),
         (JStr "x = 1; x"), (JList []), (JNum 1), (JDict []).
  repeat split.
Defined.

Lemma from_nb_rejects_witness :
  from_nb (JDict [("cell_type", JStr "code"); ("source", JStr "x")]) true
  = Failed AssertionError
  /\ from_nb (code_cell_dict (JList [JStr "x"; JNum 1]) (JList [])) true
     = Failed (Uncaught TypeError).
Proof.
  split.
  - apply (proj1 (from_nb_rejects _ true)).
    right. right. left. exists "outputs". split; [simpl; tauto | reflexivity].
  - apply (proj2 (from_nb_rejects _ true) (JStr "code") [JStr "x"; JNum 1]
             (JList []) (JNum 1) (JDict [])); reflexivity.
Defined.

(** X11.  [CodeCell.from_nb] joins a fragmented [source] with no
    separator: two cell dicts that differ only in how the same source
    text is split build the same cell, or fail the same way, and the
    source of a built cell is that text as one string. *)
Theorem from_nb_source_split_invariant
  (d d' : list (string * json)) (src src' : json) (s : string)
  (notebook : bool) :
  (forall k, k <> "source" -> dict_get k d = dict_get k d') ->
  dict_get "source" d = Some src -> dict_get "source" d' = Some src' ->
  represents src s -> represents src' s ->
  from_nb (JDict d) notebook = from_nb (JDict d') notebook
  /\ (forall obj, from_nb (JDict d) notebook = Built obj ->
                  obj_source obj = JStr s).
Proof.
  intros Hsame Hsrc Hsrc' Hr Hr'.
  pose proof (Hsame "cell_type" ltac:(discriminate)) as H1.
  pose proof (Hsame "execution_count" ltac:(discriminate)) as H2.
  pose proof (Hsame "metadata" ltac:(discriminate)) as H3.
  pose proof (Hsame "outputs" ltac:(discriminate)) as H4.
  pose proof (Hsame "id" ltac:(discriminate)) as H5.
  apply join_if_list_represents in Hr, Hr'.
  unfold from_nb. rewrite !assert_keys_dict.
  cbn [forallb getitem get truthy]. unfold has_key.
  rewrite (dict_get_nonempty _ _ _ Hsrc), (dict_get_nonempty _ _ _ Hsrc'),
    H1, H2, H3, H4, H5, Hsrc, Hsrc'.
  cbn [negb py_assert and_then lift]. rewrite Hr, Hr'.
  split; [reflexivity|]. intros obj.
  destruct (py_assert notebook); [|discriminate]. cbn [and_then].
  destruct (dict_get "cell_type" d') as [ct|]; [|discriminate].
  destruct (dict_get "execution_count" d') as [ec|]; [|discriminate].
  destruct (dict_get "metadata" d') as [meta|]; [|discriminate].
  destruct (dict_get "outputs" d') as [outs|]; [|discriminate].
  cbn [andb lift and_then].
  destruct (py_assert (py_eq ct (JStr "code"))); [|discriminate].
  cbn [and_then lift].
  destruct (dict_get "id" d'); cbn [and_then lift];
    intros [= <-]; reflexivity.
Qed.

Lemma from_nb_source_witness :
  from_nb (code_cell_dict (JStr "x = 1; x") (JList [])) true
  = from_nb (code_cell_dict (JList [JStr "x = 1"; JStr "; x"]) (JList []))
      true.
Proof.
  refine (proj1 (from_nb_source_split_invariant
    (code_cell_fields (JStr "x = 1; x") (JList []))
    (code_cell_fields (JList [JStr "x = 1"; JStr "; x"]) (JList []))
    (JStr "x = 1; x") (JList [JStr "x = 1"; JStr "; x"]) "x = 1; x" true
    _ eq_refl eq_refl (represents_string _)
    (represents_fragments ["x = 1"; "; x"]))).
  intros k Hk. simpl.
  destruct (String.eqb k "cell_type"); [reflexivity|].
  destruct (String.eqb k "execution_count"); [reflexivity|].
  destruct (String.eqb k "id"); [reflexivity|].
  destruct (String.eqb k "metadata"); [reflexivity|].
  destruct (String.eqb k "source") eqn:E; [|reflexivity].
  apply String.eqb_eq in E. contradiction.
Defined.

Lemma test_match_recorded (self : CodeCell) :
  forallb wf_output (original_outputs self) = true ->
  forallb nan_free (original_outputs self) = true ->
  test_match self (original_outputs self) = Ok true.
Proof.
  intros Hwf Hnan. unfold test_match. rewrite Nat.eqb_refl. cbn [negb].
  apply match_output_pairs_true. intros e o Hin.
  apply in_combine_same in Hin as [<- Hin].
  rewrite forallb_forall in Hwf, Hnan.
  apply match_output_pair_refl; auto.
Qed.

(** X12.  Loading and testing compose: a cell dict with the required
    keys, a string or fragmented source and a list of well-formed
    recorded outputs that hold no [NaN] builds a cell, and that cell
    passes its test, with or without output matching, printing nothing,
    whenever the executor runs its joined source without error and
    returns the recorded outputs. *)
Theorem loaded_cell_passes_replay
  (d : list (string * json)) (ct src ec meta : json) (s : string)
  (outs : list json) :
  dict_get "cell_type" d = Some ct -> py_eq ct (JStr "code") = true ->
  dict_get "source" d = Some src -> represents src s ->
  dict_get "outputs" d = Some (JList outs) ->
  dict_get "execution_count" d = Some ec ->
  dict_get "metadata" d = Some meta ->
  forallb wf_output outs = true ->
  forallb nan_free outs = true ->
  exists obj,
    from_nb (JDict d) true = Built obj
    /\ forall (self : CodeCell) (executor : Executor)
              (verbose match_output : bool),
         cell_of_object obj self ->
         executor s = (outs, false) ->
         test self executor verbose match_output = ([], Ok true).
Proof.
  intros Hct Hcode Hsrc Hr Houts Hec Hmeta Hwf Hnan.
  apply join_if_list_represents in Hr.
  exists {| obj_source := JStr s; obj_original_outputs := JList outs;
            obj_exec_count := ec; obj_metadata := meta;
            obj_cell_id := match dict_get "id" d with
                           | Some id => id
                           | None => JNull
                           end |}.
  split.
  - unfold from_nb. rewrite assert_keys_dict.
    cbn [forallb getitem get truthy]. unfold has_key.
    rewrite (dict_get_nonempty _ _ _ Hct), Hct, Hsrc, Houts, Hec, Hmeta.
    cbn [negb andb py_assert lift and_then]. rewrite Hcode.
    cbn [py_assert and_then]. rewrite Hr. cbn [lift and_then].
    destruct (dict_get "id" d); reflexivity.
  - intros self executor verbose match_output [Hs Ho] Hexec.
    cbn [obj_source obj_original_outputs] in Hs, Ho.
    injection Hs as Hs. injection Ho as Ho.
    unfold test. rewrite <- Hs, Hexec.
    destruct match_output; [|reflexivity].
    rewrite Ho. rewrite Ho in Hwf, Hnan.
    now rewrite test_match_recorded.
Qed.

Lemma loaded_cell_witness :
  exists obj,
    from_nb (code_cell_dict (JList [JStr "1/"; JStr "0"])
               (JList sample_outputs)) true
    = Built obj
    /\ test (code_cell "1/0" sample_outputs)
         (fun _ => (sample_outputs, false)) true true
       = ([], Ok true).
Proof.
  destruct (loaded_cell_passes_replay
              (code_cell_fields (JList [JStr "1/"; JStr "0"])
                 (JList sample_outputs))
              (JStr "code") (JList [JStr "1/"; JStr "0"]) (JNum 1) (JDict [])
              "1/0" sample_outputs eq_refl eq_refl eq_refl
              (represents_fragments ["1/"; "0"]) eq_refl eq_refl eq_refl
              eq_refl eq_refl) as (obj & Hobj & Htest).
  exists obj. split; [exact Hobj|].
  apply Htest; [|reflexivity].
  injection Hobj as <-. split; reflexivity.
Defined.

(** * Markdown cells *)

Lemma py_eq_str (x : json) (s : string) :
  py_eq x (JStr s) = true -> x = JStr s.
Proof.
  destruct x; simpl; try discriminate.
  intros H. apply String.eqb_eq in H. now subst.
Qed.

Lemma md_from_nb_needs_dict (nb : json) obj :
  md_from_nb nb = Built obj -> exists d, nb = JDict d.
Proof.
  destruct nb as [|b|n|f|s|l|d]; [| | | | | |eauto]; unfold md_from_nb;
    intros H; exfalso; revert H.
  - discriminate.
  - destruct b; discriminate.
  - cbn [truthy]. destruct (negb (Z.eqb n 0)); discriminate.
  - cbn [truthy]. destruct (negb (float_eqb f (float_of_Z 0))); discriminate.
  - destruct (py_assert (truthy (JStr s))); [|discriminate].
    cbn [and_then]. destruct (assert_keys (JStr s) _); discriminate.
  - destruct (py_assert (truthy (JList l))); [|discriminate].
    cbn [and_then]. destruct (assert_keys (JList l) _); discriminate.
Qed.

(** X13.  [MarkdownCell.from_nb] builds a cell exactly from a dict
    that holds [cell_type], [metadata] and [source], with a [cell_type]
    equal to [markdown] and a [source] that is not a list or is a list of
    strings; the cell keeps the metadata, the joined source, and the [id]
    when there is one, [None] otherwise. *)
Theorem md_from_nb_builds_iff (nb : json) (obj : MarkdownCellObject) :
  md_from_nb nb = Built obj
  <-> exists d ct src src' meta,
        nb = JDict d
        /\ dict_get "cell_type" d = Some ct
        /\ py_eq ct (JStr "markdown") = true
        /\ dict_get "source" d = Some src
        /\ join_if_list src = Ok src'
        /\ dict_get "metadata" d = Some meta
        /\ obj = {| mdobj_source := src'; mdobj_metadata := meta;
                    mdobj_cell_id := match dict_get "id" d with
                                     | Some id => id
                                     | None => JNull
                                     end |}.
Proof.
  split.
  - intros H. destruct (md_from_nb_needs_dict _ _ H) as [d ->].
    revert H. unfold md_from_nb. rewrite assert_keys_dict.
    cbn [forallb getitem get]. unfold has_key.
    destruct (py_assert (truthy (JDict d))); [|discriminate].
    cbn [and_then].
    destruct (dict_get "cell_type" d) as [ct|] eqn:E1; [|discriminate].
    destruct (dict_get "metadata" d) as [meta|] eqn:E2; [|discriminate].
    destruct (dict_get "source" d) as [src|] eqn:E3; [|discriminate].
    cbn [andb lift and_then].
    destruct (py_eq ct (JStr "markdown")) eqn:Ect; [|discriminate].
    cbn [py_assert and_then].
    destruct (join_if_list src) as [src'|] eqn:Es; [|discriminate].
    cbn [lift and_then]. intros H.
    exists d, ct, src, src', meta.
    repeat (split; [reflexivity || assumption|]).
    destruct (dict_get "id" d); cbn [lift and_then] in H;
      injection H as <-; reflexivity.
  - intros (d & ct & src & src' & meta
            & -> & Hct & Hcode & Hsrc & Hjoin & Hmeta & ->).
    unfold md_from_nb. rewrite assert_keys_dict.
    cbn [forallb getitem get truthy]. unfold has_key.
    rewrite (dict_get_nonempty _ _ _ Hct), Hct, Hsrc, Hmeta.
    cbn [negb andb py_assert lift and_then]. rewrite Hcode.
    cbn [py_assert and_then]. rewrite Hjoin. cbn [lift and_then].
    destruct (dict_get "id" d); reflexivity.
Qed.

(** X14.  No notebook dict is both a code cell and a markdown cell:
    a value from which [CodeCell.from_nb] builds a cell is rejected by
    [MarkdownCell.from_nb] with an [AssertionError], and the other way
    round. *)
Theorem cell_kinds_exclusive (nb : json) (notebook : bool) :
  (forall obj, from_nb nb notebook = Built obj ->
               md_from_nb nb = Failed AssertionError)
  /\ (forall mobj, md_from_nb nb = Built mobj ->
                   from_nb nb notebook = Failed AssertionError).
Proof.
  split.
  - intros obj Hc. destruct (from_nb_needs_dict _ _ _ Hc) as [d ->].
    revert Hc. unfold from_nb, md_from_nb. rewrite !assert_keys_dict.
    cbn [forallb getitem get]. unfold has_key.
    destruct (py_assert (truthy (JDict d))); [|discriminate].
    destruct (py_assert notebook); [|discriminate]. cbn [and_then].
    destruct (dict_get "cell_type" d) as [ct|]; [|discriminate].
    destruct (dict_get "execution_count" d); [|discriminate].
    destruct (dict_get "metadata" d); [|discriminate].
    destruct (dict_get "source" d); [|discriminate].
    destruct (dict_get "outputs" d); [|discriminate].
    cbn [andb lift and_then].
    destruct (py_eq ct (JStr "code")) eqn:Ecode; [|discriminate].
    apply py_eq_str in Ecode. subst ct. reflexivity.
  - intros mobj Hm. destruct (md_from_nb_needs_dict _ _ Hm) as [d ->].
    revert Hm. unfold from_nb, md_from_nb. rewrite !assert_keys_dict.
    cbn [forallb getitem get]. unfold has_key.
    destruct (py_assert (truthy (JDict d))); [|discriminate].
    cbn [and_then].
    destruct notebook; [|reflexivity]. cbn [py_assert and_then].
    destruct (dict_get "cell_type" d) as [ct|]; [|discriminate].
    destruct (dict_get "metadata" d); [|discriminate].
    destruct (dict_get "source" d); [|discriminate].
    cbn [andb lift and_then].
    destruct (py_eq ct (JStr "markdown")) eqn:Emd; [|discriminate].
    apply py_eq_str in Emd. subst ct. intros _.
    destruct (dict_get "execution_count" d); [|reflexivity].
    destruct (dict_get "outputs" d); reflexivity.
Qed.

Lemma cell_kinds_exclusive_witness :
  md_from_nb (code_cell_dict (JStr "x") (JList [])) = Failed AssertionError.
Proof.
  exact (proj1 (cell_kinds_exclusive (code_cell_dict (JStr "x") (JList []))
                  true) _ eq_refl).
Defined.

(** * A notebook test that raises, and the command line run *)

Section RunFacts.

Context {Path Notebook LoadError : Type}.
Variable load_notebook : Path -> LoadError + Notebook.
Variable notebook_test : Notebook -> json -> bool -> bool -> result bool.

Lemma test_loop_raises (self : Tester Notebook) (before after : list Notebook)
  (nb : Notebook) (e : exn) :
  (forall x, In x before -> exists b, outcome notebook_test self x = Ok b) ->
  outcome notebook_test self nb = Raise e ->
  test_loop notebook_test self (before ++ nb :: after)
  = (flat_map (fun x => [SessionEnter;
                         NotebookTest x (outcome notebook_test self x);
                         SessionExit]) before
       ++ [SessionEnter; NotebookTest nb (Raise e); SessionExit],
     Raise e).
Proof.
  intros Hbefore Hnb. induction before as [|x xs IH].
  - cbn [app test_loop flat_map]. unfold test_notebook. now rewrite Hnb.
  - destruct (Hbefore x (or_introl eq_refl)) as [b Hb].
    cbn [app test_loop flat_map]. unfold test_notebook. rewrite Hb.
    rewrite IH by (intros y Hy; apply Hbefore; now right). reflexivity.
Qed.

Lemma tested_app (evs evs' : list (event Notebook)) :
  tested (evs ++ evs') = tested evs ++ tested evs'.
Proof.
  induction evs as [|[] evs IH]; cbn [app tested]; now rewrite ?IH.
Qed.

Lemma load_notebooks_spec (loaded : list Notebook) (paths : list Path) :
  load_notebooks load_notebook loaded paths
  = (loaded ++ loaded_prefix load_notebook paths,
     first_load_error load_notebook paths).
Proof.
  revert loaded. induction paths as [|p ps IH]; intros loaded;
    cbn [load_notebooks loaded_prefix first_load_error].
  - now rewrite app_nil_r.
  - destruct (load_notebook p) as [e|nb].
    + now rewrite app_nil_r.
    + rewrite IH, <- app_assoc. reflexivity.
Qed.

Lemma first_load_error_In (paths : list Path) (p : Path) (e : LoadError) :
  In p paths -> load_notebook p = inl e ->
  exists e', first_load_error load_notebook paths = Some e'.
Proof.
  induction paths as [|q qs IH]; [intros []|].
  intros [->|Hin] Hp; cbn [first_load_error].
  - rewrite Hp. eauto.
  - destruct (load_notebook q); eauto.
Qed.

Lemma loaded_prefix_all (paths : list Path) :
  first_load_error load_notebook paths = None ->
  map inr (loaded_prefix load_notebook paths) = map load_notebook paths.
Proof.
  induction paths as [|p ps IH]; [reflexivity|].
  cbn [first_load_error loaded_prefix map].
  destruct (load_notebook p); [discriminate|].
  intros H. cbn [map]. now rewrite IH.
Qed.

End RunFacts.

(** X15.  A notebook test that raises ends the run: the session of that
    notebook is still released, the exception leaves [Tester.test], and
    no later notebook is tested. *)
Theorem tester_test_stops_at_first_raise
  (Notebook : Type)
  (notebook_test : Notebook -> json -> bool -> bool -> result bool)
  (self : Tester Notebook) (before after : list Notebook)
  (nb : Notebook) (e : exn) :
  notebooks self = before ++ nb :: after ->
  (forall x, In x before -> exists b, outcome notebook_test self x = Ok b) ->
  outcome notebook_test self nb = Raise e ->
  tester_test notebook_test self
  = (Print ("Testing" ++ newline)
       :: flat_map (fun x => [SessionEnter;
                              NotebookTest x (outcome notebook_test self x);
                              SessionExit]) before
       ++ [SessionEnter; NotebookTest nb (Raise e); SessionExit],
     Raise e)
  /\ tested (fst (tester_test notebook_test self)) = before ++ [nb].
Proof.
  intros Hnbs Hbefore Hnb. unfold tester_test.
  rewrite Hnbs, (test_loop_raises notebook_test self before after nb e
                   Hbefore Hnb).
  split; [reflexivity|]. cbn [fst tested].
  now rewrite tested_app, tested_sessions.
Qed.

Lemma tester_test_raise_witness :
  tester_test raises_on_false
    (tester_of 1 [true; false; true])
  = ([Print ("Testing" ++ newline);
      SessionEnter; NotebookTest true (Ok true); SessionExit;
      SessionEnter; NotebookTest false (Raise KeyError); SessionExit],
     Raise KeyError).
Proof.
  refine (proj1 (tester_test_stops_at_first_raise bool
    raises_on_false
    (tester_of 1 [true; false; true]) [true] [true] false KeyError
    eq_refl _ eq_refl)).
  intros x [<-|[]]. exists true. reflexivity.
Defined.

(** X16.  [run_tester] loads every notebook before it tests any: when
    some path of the command line does not load, the run ends with the
    exception of the first such path, and the tester prints nothing,
    opens no session and tests no notebook, not even those that
    loaded. *)
Theorem run_tester_fails_fast
  (Path Notebook LoadError : Type)
  (load_notebook : Path -> LoadError + Notebook)
  (notebook_test : Notebook -> json -> bool -> bool -> result bool)
  (now : pyfloat) (args : Args Path) (p : Path) (e : LoadError) :
  In p (arg_notebooks args) -> load_notebook p = inl e ->
  exists e',
    first_load_error load_notebook (arg_notebooks args) = Some e'
    /\ run_tester load_notebook notebook_test now args = ([], inl e').
Proof.
  intros Hin Hp.
  destruct (first_load_error_In load_notebook _ p e Hin Hp) as [e' He'].
  exists e'. split; [assumption|].
  unfold run_tester, cli. rewrite load_notebooks_spec, He'. reflexivity.
Qed.

Lemma run_tester_fails_fast_witness :
  run_tester loads answers start_time
    {| arg_notebooks := [true; false; true]; arg_num_threads := Some 4%Z;
       arg_seed := Some 7%Z; arg_match_output := true; arg_verbose := true |}
  = ([], inl "malformed").
Proof.
  destruct (run_tester_fails_fast bool bool string loads answers start_time
              {| arg_notebooks := [true; false; true];
                 arg_num_threads := Some 4%Z;
                 arg_seed := Some 7%Z; arg_match_output := true;
                 arg_verbose := true |}
              false "malformed" (or_intror (or_introl eq_refl)) eq_refl)
    as (e' & He' & Hrun).
  rewrite Hrun. injection He' as <-. reflexivity.
Defined.

(** X17.  When every path loads, [run_tester] tests the loaded
    notebooks in command line order under the flags of the command line:
    the run is [Tester.test] of a tester holding exactly those, with the
    seed of [--seed] or else the time the tester was created, and the
    thread count of [--num-threads] or else 1. *)
Theorem run_tester_tests_loaded
  (Path Notebook LoadError : Type)
  (load_notebook : Path -> LoadError + Notebook)
  (notebook_test : Notebook -> json -> bool -> bool -> result bool)
  (now : pyfloat) (args : Args Path) :
  first_load_error load_notebook (arg_notebooks args) = None ->
  exists nbs,
    map inr nbs = map load_notebook (arg_notebooks args)
    /\ run_tester load_notebook notebook_test now args
       = (fst (tester_test notebook_test
                 (loaded_tester now args nbs)),
          inr (snd (tester_test notebook_test
                      (loaded_tester now args nbs)))).
Proof.
  intros Hnone. exists (loaded_prefix load_notebook (arg_notebooks args)).
  split; [now apply loaded_prefix_all|].
  unfold run_tester, cli. rewrite load_notebooks_spec, Hnone.
  cbn [tester_init notebooks num_threads seed app]. unfold loaded_tester.
  destruct (tester_test notebook_test _). reflexivity.
Qed.

Lemma run_tester_tests_loaded_witness :
  exists nbs,
    map inr nbs = map loads [true; true]
    /\ run_tester loads answers start_time
         {| arg_notebooks := [true; true]; arg_num_threads := None;
            arg_seed := None; arg_match_output := false;
            arg_verbose := false |}
       = (fst (tester_test answers
                 {| num_threads := 1; notebooks := nbs;
                    seed := JFloat start_time;
                    verbose := false; match_output := false |}),
          inr (snd (tester_test answers
                      {| num_threads := 1; notebooks := nbs;
                         seed := JFloat start_time;
                         verbose := false; match_output := false |}))).
Proof.
  exact (run_tester_tests_loaded bool bool string loads answers start_time
           {| arg_notebooks := [true; true]; arg_num_threads := None;
              arg_seed := None; arg_match_output := false;
              arg_verbose := false |} eq_refl).
Defined.

(** * [==] is symmetric on valid values *)

Lemma valid_dict_In (d : list (string * json)) k v :
  valid (JDict d) = true -> In (k, v) d -> valid v = true.
Proof.
  simpl. rewrite andb_true_iff, forallb_forall. intros [_ Hall] Hin.
  apply (Hall (k, v) Hin).
Qed.

Lemma dict_cover (P : json -> json -> Prop) (a b : list (string * json)) :
  distinct (dict_keys a) = true -> distinct (dict_keys b) = true ->
  length a = length b ->
  (forall k v, In (k, v) a -> exists w, dict_get k b = Some w /\ P v w) ->
  forall k w, In (k, w) b -> exists v, In (k, v) a /\ P v w.
Proof.
  intros Ha Hb Hlen Hab k w Hin.
  assert (incl (dict_keys a) (dict_keys b)) as Hincl.
  { intros k' Hk'. apply dict_get_keys in Hk' as [v Hv].
    destruct (Hab k' v (dict_get_Some_In _ _ _ Hv)) as (w' & Hw' & _).
    apply dict_get_keys. eauto. }
  assert (In k (dict_keys a)) as Hk.
  { apply (NoDup_length_incl (l := dict_keys a) (l' := dict_keys b)
             (proj1 (distinct_NoDup _) Ha)).
    - unfold dict_keys. rewrite !length_map. lia.
    - exact Hincl.
    - unfold dict_keys. change k with (fst (k, w)). now apply in_map. }
  apply dict_get_keys in Hk as [v Hv]. apply dict_get_Some_In in Hv.
  destruct (Hab k v Hv) as (w' & Hw' & HP).
  rewrite (dict_get_distinct k w b Hb Hin) in Hw'. injection Hw' as <-.
  eauto.
Qed.

Lemma dict_eq_true (a b : list (string * json)) :
  py_eq (JDict a) (JDict b) = true
  <-> length a = length b
      /\ forall k v, In (k, v) a ->
                     exists w, dict_get k b = Some w /\ py_eq v w = true.
Proof.
  cbn [py_eq]. rewrite andb_true_iff, Nat.eqb_eq, forallb_forall.
  split; intros [Hlen H]; (split; [assumption|]).
  - intros k v Hin. specialize (H (k, v) Hin). cbn [fst snd] in H.
    destruct (dict_get k b) as [w|]; [eauto | discriminate].
  - intros [k v] Hin. cbn [fst snd].
    destruct (H k v Hin) as (w & -> & Hw). exact Hw.
Qed.

Lemma float_eqb_sym (f g : pyfloat) : float_eqb f g = float_eqb g f.
Proof.
  destruct f as [|a|m e], g as [|b|m' e']; try reflexivity; simpl.
  - destruct a, b; reflexivity.
  - rewrite (Z.min_comm e' e). apply Z.eqb_sym.
Qed.

Lemma py_eq_sym (x : json) :
  valid x = true -> forall y, valid y = true -> py_eq x y = py_eq y x.
Proof.
  induction x as [| b | n | f | s | l IH | a IH] using json_ind;
    intros Hx y Hy.
  - destruct y; reflexivity.
  - destruct y as [| b' | n | f | | |]; try reflexivity.
    + destruct b, b'; reflexivity.
    + apply Z.eqb_sym.
    + apply float_eqb_sym.
  - destruct y as [| b | m | f | | |]; try reflexivity;
      try apply Z.eqb_sym. apply float_eqb_sym.
  - destruct y; try reflexivity; apply float_eqb_sym.
  - destruct y; try reflexivity. apply String.eqb_sym.
  - destruct y as [| | | | |r|]; try reflexivity.
    revert r Hy. induction l as [|u l IHl]; intros [|w r] Hy;
      try reflexivity.
    cbn [valid forallb] in Hx, Hy.
    apply andb_true_iff in Hx as [Hu Hl], Hy as [Hw Hr].
    change (py_eq u w && py_eq (JList l) (JList r)
            = py_eq w u && py_eq (JList r) (JList l)).
    rewrite (IH u (or_introl eq_refl) Hu w Hw). f_equal.
    apply IHl; [|assumption|assumption].
    intros z Hz. apply IH. now right.
  - destruct y as [| | | | | |b]; try reflexivity.
    pose proof Hx as Hxa. pose proof Hy as Hyb.
    cbn [valid] in Hxa, Hyb.
    apply andb_true_iff in Hxa as [Ha _], Hyb as [Hb _].
    apply Bool.eq_true_iff_eq. rewrite !dict_eq_true. split.
    + intros [Hlen H]. split; [lia|]. intros k w Hin.
      destruct (dict_cover (fun v w => py_eq v w = true) a b
                  Ha Hb Hlen H k w Hin) as (v & Hv & Hvw).
      exists v. split; [now apply dict_get_distinct|].
      rewrite <- (IH k v Hv (valid_dict_In _ _ _ Hx Hv) w
                    (valid_dict_In _ _ _ Hy Hin)).
      exact Hvw.
    + intros [Hlen H]. split; [lia|]. intros k v Hin.
      destruct (dict_cover (fun w v => py_eq w v = true) b a
                  Hb Ha Hlen H k v Hin) as (w & Hw & Hwv).
      exists w. split; [now apply dict_get_distinct|].
      rewrite (IH k v Hin (valid_dict_In _ _ _ Hx Hin) w
                 (valid_dict_In _ _ _ Hy Hw)).
      exact Hwv.
Qed.

(** * Swapping the fresh and the recorded outputs *)

Lemma compare_multiline_text_sym (a b : json) :
  joinable a = true -> joinable b = true ->
  valid a = true -> valid b = true ->
  _compare_multiline_text a b = _compare_multiline_text b a.
Proof.
  intros Ha Hb Hva Hvb. unfold _compare_multiline_text.
  destruct (join_if_list_total a Ha) as [a' [-> Ha']].
  destruct (join_if_list_total b Hb) as [b' [-> Hb']].
  cbn [bind]. now rewrite (py_eq_sym a' (Ha' Hva) b' (Hb' Hvb)).
Qed.

Lemma all_fields_equal_sym d d' ks :
  valid (JDict d) = true -> valid (JDict d') = true ->
  (forall k, In k ks -> has_key k d = true /\ has_key k d' = true) ->
  all_fields_equal (JDict d) (JDict d') ks
  = all_fields_equal (JDict d') (JDict d) ks.
Proof.
  intros Hv Hv'. induction ks as [|k ks IH]; intros H; [reflexivity|].
  destruct (H k (or_introl eq_refl)) as [Hk Hk'].
  apply has_key_get in Hk as [v Hget]. apply has_key_get in Hk' as [v' Hget'].
  cbn [all_fields_equal].
  rewrite (getitem_dict _ _ _ Hget), (getitem_dict _ _ _ Hget'). cbn [bind].
  rewrite (py_eq_sym v (valid_dict_get _ _ _ Hv Hget)
             v' (valid_dict_get _ _ _ Hv' Hget')).
  rewrite IH by (intros k' Hin; apply H; now right). reflexivity.
Qed.

Lemma data_key_ok_sym dd md dd' md' key :
  valid (JDict dd) = true -> valid (JDict md) = true ->
  valid (JDict dd') = true -> valid (JDict md') = true ->
  text_plain_ok dd = true -> text_plain_ok dd' = true ->
  In key (dict_keys dd) -> In key (dict_keys dd') ->
  data_key_ok (JDict dd) (JDict md) (JDict dd') (JDict md') key
  = data_key_ok (JDict dd') (JDict md') (JDict dd) (JDict md) key.
Proof.
  intros Hv Hm Hv' Hm' Ht Ht' Hk Hk'.
  apply dict_get_keys in Hk as [v Hget].
  apply dict_get_keys in Hk' as [v' Hget'].
  pose proof (valid_dict_get _ _ _ Hv Hget) as Hvv.
  pose proof (valid_dict_get _ _ _ Hv' Hget') as Hvv'.
  unfold data_key_ok, py_ne.
  rewrite (getitem_dict _ _ _ Hget), (getitem_dict _ _ _ Hget'). cbn [bind].
  rewrite (py_eq_sym v Hvv v' Hvv').
  destruct (String.eqb key "text/plain") eqn:E1.
  - apply String.eqb_eq in E1. subst key.
    unfold text_plain_ok in Ht, Ht'. rewrite Hget in Ht. rewrite Hget' in Ht'.
    now apply compare_multiline_text_sym.
  - destruct (String.eqb key "application/json"); [reflexivity|].
    destruct (String.eqb key "image/png"); [|reflexivity].
    destruct (negb (py_eq v' v)); [reflexivity|].
    unfold get.
    destruct (dict_get key md) as [g|] eqn:Eg;
      destruct (dict_get key md') as [g'|] eqn:Eg'; cbn [bind];
      try reflexivity.
    + now rewrite (py_eq_sym g (valid_dict_get _ _ _ Hm Eg)
                     g' (valid_dict_get _ _ _ Hm' Eg')).
    + now rewrite (py_eq_sym g (valid_dict_get _ _ _ Hm Eg) JNull eq_refl).
    + now rewrite (py_eq_sym g' (valid_dict_get _ _ _ Hm' Eg') JNull eq_refl).
Qed.

Lemma data_keys_ok_all ed em od om ks :
  (forall k, In k ks -> data_key_ok ed em od om k = Ok true) ->
  data_keys_ok ed em od om ks = Ok true.
Proof.
  induction ks as [|k ks IH]; intros H; [reflexivity|].
  cbn [data_keys_ok]. rewrite (H k (or_introl eq_refl)). cbn [bind].
  apply IH. intros k' Hin. apply H. now right.
Qed.

(** Two total runs of the loop over lists with the same keys agree. *)
Lemma data_keys_ok_same_set ed em od om ed' em' od' om' ks ks' b b' :
  (forall k, In k ks <-> In k ks') ->
  (forall k, In k ks ->
             data_key_ok ed em od om k = data_key_ok ed' em' od' om' k) ->
  data_keys_ok ed em od om ks = Ok b ->
  data_keys_ok ed' em' od' om' ks' = Ok b' ->
  b = b'.
Proof.
  intros Hset Hsame Hb Hb'. apply Bool.eq_true_iff_eq. split; intros ->.
  - assert (data_keys_ok ed' em' od' om' ks' = Ok true) as H.
    { apply data_keys_ok_all. intros k Hk. rewrite <- Hsame by now apply Hset.
      eapply data_keys_ok_true; eauto. now apply Hset. }
    congruence.
  - assert (data_keys_ok ed em od om ks = Ok true) as H.
    { apply data_keys_ok_all. intros k Hk. rewrite Hsame by assumption.
      eapply data_keys_ok_true; eauto. now apply Hset. }
    congruence.
Qed.

Lemma keys_eq_sym (a b : list string) :
  distinct a = true -> distinct b = true -> keys_eq a b = keys_eq b a.
Proof.
  intros Ha Hb. apply Bool.eq_true_iff_eq.
  rewrite (keys_eq_same_set a b Ha Hb), (keys_eq_same_set b a Hb Ha).
  split; intros H k; symmetry; apply H.
Qed.

Lemma valid_distinct_keys (d : list (string * json)) :
  valid (JDict d) = true -> distinct (dict_keys d) = true.
Proof. simpl. rewrite andb_true_iff. tauto. Qed.

Lemma test_match_execute_result_sym d d' dd md dd' md' :
  valid (JDict d) = true -> valid (JDict d') = true ->
  dict_get "data" d = Some (JDict dd) ->
  dict_get "metadata" d = Some (JDict md) ->
  dict_get "data" d' = Some (JDict dd') ->
  dict_get "metadata" d' = Some (JDict md') ->
  text_plain_ok dd = true -> text_plain_ok dd' = true ->
  _test_match_execute_result (JDict d) (JDict d')
  = _test_match_execute_result (JDict d') (JDict d).
Proof.
  intros Hv Hv' Hd Hm Hd' Hm' Ht Ht'.
  pose proof (valid_dict_get _ _ _ Hv Hd) as Hvd.
  pose proof (valid_dict_get _ _ _ Hv Hm) as Hvm.
  pose proof (valid_dict_get _ _ _ Hv' Hd') as Hvd'.
  pose proof (valid_dict_get _ _ _ Hv' Hm') as Hvm'.
  unfold _test_match_execute_result.
  rewrite (getitem_dict _ _ _ Hd), (getitem_dict _ _ _ Hm),
    (getitem_dict _ _ _ Hd'), (getitem_dict _ _ _ Hm'). cbn [bind keys].
  rewrite (keys_eq_sym (dict_keys dd') (dict_keys dd)
             (valid_distinct_keys _ Hvd') (valid_distinct_keys _ Hvd)).
  destruct (keys_eq (dict_keys dd) (dict_keys dd')) eqn:E; cbn [negb];
    [|reflexivity].
  pose proof (proj1 (keys_eq_same_set _ _ (valid_distinct_keys _ Hvd)
                       (valid_distinct_keys _ Hvd')) E) as Hset.
  destruct (data_keys_ok_total dd md dd' md' (dict_keys dd)) as [b Hb];
    [intros k Hk; split; [assumption | now apply Hset] | assumption
    | assumption |].
  destruct (data_keys_ok_total dd' md' dd md (dict_keys dd')) as [b' Hb'];
    [intros k Hk; split; [assumption | now apply Hset] | assumption
    | assumption |].
  rewrite Hb, Hb'. f_equal.
  eapply data_keys_ok_same_set; [exact Hset | | exact Hb | exact Hb'].
  intros k Hk. apply data_key_ok_sym; auto. now apply Hset.
Qed.

Lemma match_output_pair_sym (e o : json) :
  wf_output e = true -> wf_output o = true ->
  match_output_pair e o = match_output_pair o e.
Proof.
  intros He Ho.
  apply wf_output_inv in He as (d & k & -> & Hv & Hf & Hk).
  apply wf_output_inv in Ho as (d' & k' & -> & Hv' & Hf' & Hk').
  unfold match_output_pair, py_ne.
  rewrite (getitem_dict _ _ _ Hk), (getitem_dict _ _ _ Hk').
  cbn [bind py_eq]. rewrite (String.eqb_sym k' k).
  destruct (String.eqb k k') eqn:E; cbn [negb]; [|reflexivity].
  apply String.eqb_eq in E. subst k'.
  unfold wf_fields in Hf, Hf'. rewrite Hk in Hf. rewrite Hk' in Hf'.
  cbn [match_by_kind]. destruct (String.eqb k "stream").
  - apply andb_true_iff in Hf as [Hn Ht], Hf' as [Hn' Ht'].
    apply has_key_get in Hn as [n Hn]. apply has_key_get in Hn' as [n' Hn'].
    destruct (dict_get "text" d) as [t|] eqn:Et; [|discriminate].
    destruct (dict_get "text" d') as [t'|] eqn:Et'; [|discriminate].
    unfold _test_match_stream, py_ne.
    rewrite (getitem_dict _ _ _ Hn), (getitem_dict _ _ _ Hn'),
      (getitem_dict _ _ _ Et), (getitem_dict _ _ _ Et'). cbn [bind].
    rewrite (py_eq_sym n (valid_dict_get _ _ _ Hv Hn)
               n' (valid_dict_get _ _ _ Hv' Hn')).
    destruct (negb (py_eq n' n)); [reflexivity|].
    apply compare_multiline_text_sym; try assumption.
    + exact (valid_dict_get _ _ _ Hv Et).
    + exact (valid_dict_get _ _ _ Hv' Et').
  - destruct (String.eqb k "error").
    + repeat rewrite andb_true_iff in Hf, Hf'.
      apply all_fields_equal_sym; try assumption. simpl.
      intros key [<-|[<-|[<-|[]]]]; tauto.
    + destruct (String.eqb k "display_data" || String.eqb k "execute_result");
        [|reflexivity].
      destruct (dict_get "data" d) as [[| | | | | |dd]|] eqn:Ed;
        try discriminate.
      destruct (dict_get "metadata" d) as [[| | | | | |md]|] eqn:Em;
        try discriminate.
      destruct (dict_get "data" d') as [[| | | | | |dd']|] eqn:Ed';
        try discriminate.
      destruct (dict_get "metadata" d') as [[| | | | | |md']|] eqn:Em';
        try discriminate.
      eapply test_match_execute_result_sym; eauto.
Qed.

Lemma match_output_pairs_sym (l r : list json) :
  forallb wf_output l = true -> forallb wf_output r = true ->
  match_output_pairs (combine l r) = match_output_pairs (combine r l).
Proof.
  revert r. induction l as [|x xs IH]; intros [|y ys]; try reflexivity.
  cbn [forallb]. rewrite !andb_true_iff. intros [Hx Hxs] [Hy Hys].
  cbn [combine match_output_pairs].
  rewrite (match_output_pair_sym x y Hx Hy), (IH ys Hxs Hys). reflexivity.
Qed.

(** X18.  On well-formed records the match is symmetric: comparing
    fresh outputs with the recorded ones gives the verdict of comparing
    the recorded ones with the fresh ones. *)
Theorem test_match_symmetric (self self' : CodeCell) :
  forallb wf_output (original_outputs self) = true ->
  forallb wf_output (original_outputs self') = true ->
  test_match self (original_outputs self')
  = test_match self' (original_outputs self).
Proof.
  intros Hwf Hwf'. unfold test_match.
  rewrite (Nat.eqb_sym (length (original_outputs self))).
  destruct (Nat.eqb (length (original_outputs self'))
              (length (original_outputs self))); cbn [negb]; [|reflexivity].
  now apply match_output_pairs_sym.
Qed.

Lemma test_match_symmetric_witness :
  test_match (code_cell "" sample_outputs) replayed_outputs
  = test_match (code_cell "" replayed_outputs) sample_outputs.
Proof.
  exact (test_match_symmetric (code_cell "" sample_outputs)
           (code_cell "" replayed_outputs) eq_refl eq_refl).
Defined.

(** * The order of the data entries *)

Lemma py_eq_str_l (s : string) (y : json) :
  py_eq (JStr s) y = true -> y = JStr s.
Proof.
  destruct y; simpl; try discriminate.
  intros H. apply String.eqb_eq in H. now subst.
Qed.

Lemma same_mapping_keys {V : Type} (dd dd2 : list (string * V)) :
  (forall k, dict_get k dd = dict_get k dd2) ->
  forall k, In k (dict_keys dd) <-> In k (dict_keys dd2).
Proof. intros H k. rewrite !dict_get_keys, H. reflexivity. Qed.

Lemma test_match_execute_result_reordered d d2 dd dd2 md d' dd' md' :
  valid (JDict d) = true -> valid (JDict d2) = true ->
  valid (JDict d') = true ->
  dict_get "data" d = Some (JDict dd) ->
  dict_get "data" d2 = Some (JDict dd2) ->
  dict_get "metadata" d = Some (JDict md) ->
  dict_get "metadata" d2 = Some (JDict md) ->
  dict_get "data" d' = Some (JDict dd') ->
  dict_get "metadata" d' = Some (JDict md') ->
  text_plain_ok dd = true -> text_plain_ok dd' = true ->
  (forall k, dict_get k dd = dict_get k dd2) ->
  _test_match_execute_result (JDict d2) (JDict d')
  = _test_match_execute_result (JDict d) (JDict d').
Proof.
  intros Hv Hv2 Hv' Hd Hd2 Hm Hm2 Hd' Hm' Ht Ht' Hsame.
  pose proof (valid_distinct_keys _ (valid_dict_get _ _ _ Hv Hd)) as Hdd.
  pose proof (valid_distinct_keys _ (valid_dict_get _ _ _ Hv2 Hd2)) as Hdd2.
  pose proof (valid_distinct_keys _ (valid_dict_get _ _ _ Hv' Hd')) as Hdd'.
  pose proof (same_mapping_keys dd dd2 Hsame) as Hkeys.
  assert (text_plain_ok dd2 = true) as Ht2
    by (unfold text_plain_ok in *; now rewrite <- Hsame).
  unfold _test_match_execute_result.
  rewrite (getitem_dict _ _ _ Hd), (getitem_dict _ _ _ Hd2),
    (getitem_dict _ _ _ Hm), (getitem_dict _ _ _ Hm2),
    (getitem_dict _ _ _ Hd'), (getitem_dict _ _ _ Hm'). cbn [bind keys].
  assert (keys_eq (dict_keys dd2) (dict_keys dd')
          = keys_eq (dict_keys dd) (dict_keys dd')) as ->.
  { apply Bool.eq_true_iff_eq.
    rewrite (keys_eq_same_set _ _ Hdd2 Hdd'), (keys_eq_same_set _ _ Hdd Hdd').
    split; intros H k; [rewrite Hkeys | rewrite <- Hkeys]; apply H. }
  destruct (keys_eq (dict_keys dd) (dict_keys dd')) eqn:E; cbn [negb];
    [|reflexivity].
  pose proof (proj1 (keys_eq_same_set _ _ Hdd Hdd') E) as Hset.
  destruct (data_keys_ok_total dd md dd' md' (dict_keys dd)) as [b Hb];
    [intros k Hk; split; [assumption | now apply Hset] | assumption
    | assumption |].
  destruct (data_keys_ok_total dd2 md dd' md' (dict_keys dd2)) as [b2 Hb2];
    [intros k Hk; split; [assumption | now apply Hset, Hkeys] | assumption
    | assumption |].
  rewrite Hb, Hb2. f_equal.
  eapply data_keys_ok_same_set; [| | exact Hb2 | exact Hb].
  - intros k. symmetry. apply Hkeys.
  - intros k _. unfold data_key_ok.
    now rewrite (getitem_congr dd dd2 k (Hsame k)).
Qed.

(** X19.  On well-formed records the verdict does not depend on the
    order in which a data mapping lists its entries: a record and the
    same record with its data entries reordered compare alike against
    any record, on either side. *)
Theorem data_entry_order_irrelevant (r r2 o : json) :
  wf_output r = true -> wf_output r2 = true -> wf_output o = true ->
  data_reordered r r2 ->
  match_output_pair r2 o = match_output_pair r o
  /\ match_output_pair o r2 = match_output_pair o r.
Proof.
  intros Hr Hr2 Ho (d & d2 & dd & dd2 & -> & -> & Hf & Hd & Hd2 & Hsame).
  assert (match_output_pair (JDict d2) o = match_output_pair (JDict d) o)
    as Heq.
  { apply wf_output_inv in Hr as (d0 & k & [= <-] & Hv & Hwf & Hk).
    apply wf_output_inv in Hr2 as (d0 & k2 & [= <-] & Hv2 & _ & _).
    apply wf_output_inv in Ho as (d' & k' & -> & Hv' & Hwf' & Hk').
    pose proof (Hf "output_type" ltac:(discriminate)) as Hkind.
    unfold match_output_pair.
    rewrite (getitem_congr _ _ _ Hkind), (getitem_dict _ _ _ Hk),
      (getitem_dict _ _ _ Hk'). cbn [bind].
    destruct (py_ne (JStr k) (JStr k')) eqn:Ene; [reflexivity|].
    apply negb_false_iff, py_eq_str_l in Ene. injection Ene as ->.
    cbn [match_by_kind].
    unfold _test_match_stream, _test_match_error. cbn [all_fields_equal].
    rewrite (getitem_congr _ _ _ (Hf "name" ltac:(discriminate))),
      (getitem_congr _ _ _ (Hf "text" ltac:(discriminate))),
      (getitem_congr _ _ _ (Hf "ename" ltac:(discriminate))),
      (getitem_congr _ _ _ (Hf "evalue" ltac:(discriminate))),
      (getitem_congr _ _ _ (Hf "traceback" ltac:(discriminate))).
    destruct (String.eqb k "stream") eqn:E1; [reflexivity|].
    destruct (String.eqb k "error") eqn:E2; [reflexivity|].
    destruct (String.eqb k "display_data" || String.eqb k "execute_result")
      eqn:E3; [|reflexivity].
    unfold wf_fields in Hwf, Hwf'. rewrite Hk, E1, E2, E3, Hd in Hwf.
    rewrite Hk', E1, E2, E3 in Hwf'.
    destruct (dict_get "metadata" d) as [[| | | | | |md]|] eqn:Em;
      try discriminate.
    destruct (dict_get "data" d') as [[| | | | | |dd']|] eqn:Ed';
      try discriminate.
    destruct (dict_get "metadata" d') as [[| | | | | |md']|] eqn:Em';
      try discriminate.
    eapply test_match_execute_result_reordered; eauto.
    rewrite <- (Hf "metadata" ltac:(discriminate)). exact Em. }
  split; [exact Heq|].
  rewrite (match_output_pair_sym o (JDict d2) Ho Hr2),
    (match_output_pair_sym o (JDict d) Ho Hr).
  exact Heq.
Qed.

Lemma data_entry_order_witness :
  match_output_pair
    (display_data_record
       [("image/png", JStr "AAA"); ("text/plain", JStr "x")] [])
    (display_data_record
       [("text/plain", JList [JStr "x"]); ("image/png", JStr "AAA")] [])
  = match_output_pair
      (display_data_record
         [("text/plain", JStr "x"); ("image/png", JStr "AAA")] [])
      (display_data_record
         [("text/plain", JList [JStr "x"]); ("image/png", JStr "AAA")] []).
Proof.
  refine (proj1 (data_entry_order_irrelevant
    (display_data_record
       [("text/plain", JStr "x"); ("image/png", JStr "AAA")] [])
    (display_data_record
       [("image/png", JStr "AAA"); ("text/plain", JStr "x")] [])
    (display_data_record
       [("text/plain", JList [JStr "x"]); ("image/png", JStr "AAA")] [])
    eq_refl eq_refl eq_refl _)).
  exists [("output_type", JStr "display_data");
          ("data", JDict [("text/plain", JStr "x");
                          ("image/png", JStr "AAA")]);
          ("metadata", JDict [])],
         [("output_type", JStr "display_data");
          ("data", JDict [("image/png", JStr "AAA");
                          ("text/plain", JStr "x")]);
          ("metadata", JDict [])],
         [("text/plain", JStr "x"); ("image/png", JStr "AAA")],
         [("image/png", JStr "AAA"); ("text/plain", JStr "x")].
  split; [reflexivity|]. split; [reflexivity|].
  split; [|split; [reflexivity|split; [reflexivity|]]].
  - intros f Hf. simpl.
    destruct (String.eqb f "output_type"); [reflexivity|].
    destruct (String.eqb f "data") eqn:E; [|reflexivity].
    apply String.eqb_eq in E. contradiction.
  - intros k. simpl.
    destruct (String.eqb k "text/plain") eqn:E1;
      destruct (String.eqb k "image/png") eqn:E2; try reflexivity.
    apply String.eqb_eq in E1, E2. congruence.
Defined.
